(** * tensorflow-yolov4: the configuration and inference wrapper [YOLOv4]

A shallow embedding of [yolov4/tf/__init__.py] and
  [yolov4/tflite/__init__.py]: the Python object is a record, every method
  is a function from the object before the call to an [outcome] that holds
  the object after the call, whether the call returned or raised.  NumPy is
  modelled as far as the wrapper uses it ([np.array], [astype], [reshape],
  [concatenate]); Keras, the TFLite interpreter and the other packages of
  the repository are parameters of the methods that call them.  The overlap
  metric and the weight-file importer, which the wrapper delegates to, are
  modelled from the specification. *)

From Stdlib Require Import String.
From Stdlib Require Import ZArith QArith Qminmax Bool Lia Lqa List.
Import ListNotations.
Open Scope string_scope.
Open Scope list_scope.
Open Scope Z_scope.

Set Implicit Arguments.
Set Warnings "-register-all".
Set Warnings "-notation-overridden".

(** ** Python exceptions and outcomes *)

Inductive exn : Type :=
| ValueError (msg : string)
| TypeError (msg : string)
| AttributeError (msg : string)
| ZeroDivisionError (msg : string)
| IndexError (msg : string)
| FormatError (msg : string)
| ExternalError (msg : string).

(** A Python expression either yields a value or raises. *)
Inductive result (A : Type) : Type :=
| Ok (a : A)
| Err (e : exn).
Arguments Ok {A} a.
Arguments Err {A} e.

Definition rbind {A B} (r : result A) (k : A -> result B) : result B :=
  match r with
  | Ok a => k a
  | Err e => Err e
  end.

(** A method call leaves an object behind on both exits: [Raises e s] is the
    object as the raise found it, so an assignment made before the raise is
    visible in [s]. *)
Inductive outcome (S : Type) : Type :=
| Returns (s : S)
| Raises (e : exn) (s : S).
Arguments Returns {S} s.
Arguments Raises {S} e s.

Definition obind {S} (o : outcome S) (k : S -> outcome S) : outcome S :=
  match o with
  | Returns s => k s
  | Raises e s => Raises e s
  end.

Definition after {S} (o : outcome S) : S :=
  match o with
  | Returns s => s
  | Raises _ s => s
  end.

Definition returned {S} (o : outcome S) : bool :=
  match o with
  | Returns _ => true
  | Raises _ _ => false
  end.

Declare Scope py_scope.
Delimit Scope py_scope with py.
Notation "x <- r ;; k" := (rbind r (fun x => k))
  (at level 61, r at next level, right associativity) : py_scope.
Notation "o >>> k" := (obind o k)
  (at level 60, right associativity) : py_scope.
Open Scope py_scope.

(** ** NumPy arrays *)

Inductive dtype : Type := dt_int | dt_float32 | dt_float64 | dt_str | dt_object.

(** An array element.  [SObj] is an element that is no number and no text
    ([None], a dict). *)
Inductive scalar : Type :=
| SInt (z : Z)
| SFloat (q : Q)
| SStr (s : string)
| SObj.

Record ndarray : Type := mk_ndarray {
  nd_dtype : dtype;
  nd_shape : list Z;
  nd_data : list scalar   (* row-major *)
}.

(** ** Python values handed to the setters *)

Inductive pyval : Type :=
| PyNone
| PyInt (z : Z)
| PyFloat (q : Q)
| PyStr (s : string)
| PyList (l : list pyval)
| PyTuple (l : list pyval)
| PyDict (d : list (pyval * pyval))
| PyArray (a : ndarray).

Definition is_list_or_tuple (v : pyval) : bool :=
  match v with
  | PyList _ | PyTuple _ => true
  | _ => false
  end.

Definition is_ndarray (v : pyval) : bool :=
  match v with
  | PyArray _ => true
  | _ => false
  end.

Definition is_str (v : pyval) : bool :=
  match v with
  | PyStr _ => true
  | _ => false
  end.

Definition is_dict (v : pyval) : bool :=
  match v with
  | PyDict _ => true
  | _ => false
  end.

Definition prodZ (l : list Z) : Z := fold_right Z.mul 1 l.

Definition shape_eqb (s t : list Z) : bool :=
  if list_eq_dec Z.eq_dec s t then true else false.

Module np.

Definition size (a : ndarray) : Z := Z.of_nat (length (nd_data a)).

(** Type promotion when elements of different kinds meet in one array. *)
Definition promote (a b : dtype) : dtype :=
  match a, b with
  | dt_object, _ | _, dt_object => dt_object
  | dt_str, _ | _, dt_str => dt_str
  | dt_float64, _ | _, dt_float64 => dt_float64
  | dt_int, dt_int => dt_int
  | dt_float32, dt_float32 => dt_float32
  | dt_int, dt_float32 | dt_float32, dt_int => dt_float64
  end.

(** Integers stored in a floating array become floats; text and object
    arrays keep the element they were built from. *)
Definition coerce (d : dtype) (x : scalar) : scalar :=
  match d, x with
  | dt_float32, SInt z | dt_float64, SInt z => SFloat (inject_Z z)
  | _, _ => x
  end.

Definition leaf (d : dtype) (x : scalar) : ndarray :=
  mk_ndarray d [] [x].

(** All parts of one level must have the same shape.  NumPy from 1.24 on
    refuses a ragged nesting with [ValueError]; older versions build an
    array of objects instead, on which [astype(np.float32)] raises the
    [ValueError]. *)
Fixpoint same_shape (s : list Z) (parts : list ndarray) : bool :=
  match parts with
  | [] => true
  | p :: ps => shape_eqb (nd_shape p) s && same_shape s ps
  end.

(** The element type of an array made of [a] and [rest]. *)
Definition result_type (a : ndarray) (rest : list ndarray) : dtype :=
  fold_right (fun b acc => promote (nd_dtype b) acc) (nd_dtype a) rest.

Definition stack (parts : list ndarray) : result ndarray :=
  match parts with
  | [] => Ok (mk_ndarray dt_float64 [0] [])
  | p :: ps =>
      if same_shape (nd_shape p) ps then
        let d := result_type p ps in
        Ok (mk_ndarray d
              (Z.of_nat (length parts) :: nd_shape p)
              (map (coerce d) (flat_map nd_data parts)))
      else
        Err (ValueError "setting an array element with a sequence")
  end.

Fixpoint sequence {A} (l : list (result A)) : result (list A) :=
  match l with
  | [] => Ok []
  | r :: rs =>
      a <- r ;; rest <- sequence rs ;; Ok (a :: rest)
  end.

(** [np.array(v)] *)
Fixpoint array (v : pyval) : result ndarray :=
  match v with
  | PyNone => Ok (leaf dt_object SObj)
  | PyInt z => Ok (leaf dt_int (SInt z))
  | PyFloat q => Ok (leaf dt_float64 (SFloat q))
  | PyStr s => Ok (leaf dt_str (SStr s))
  | PyDict _ => Ok (leaf dt_object SObj)
  | PyArray a => Ok a
  | PyList l | PyTuple l =>
      parts <- sequence (map array l) ;; stack parts
  end.

Section Conversions.
(** The two numeric conversions NumPy performs in [astype(np.float32)]:
    rounding a number to the nearest binary32 value, and reading a number
    out of text.  Both belong to NumPy, not to this repository. *)
Variable round_f32 : Q -> Q.
Variable float_of_str : string -> option Q.

Definition to_float32 (x : scalar) : result scalar :=
  match x with
  | SInt z => Ok (SFloat (round_f32 (inject_Z z)))
  | SFloat q => Ok (SFloat (round_f32 q))
  | SStr s =>
      match float_of_str s with
      | Some q => Ok (SFloat (round_f32 q))
      | None => Err (ValueError "could not convert string to float")
      end
  | SObj => Err (TypeError "float() argument must be a string or a number")
  end.

(** [a.astype(np.float32)]: a new array, same shape. *)
Definition astype_float32 (a : ndarray) : result ndarray :=
  data <- sequence (map to_float32 (nd_data a)) ;;
  Ok (mk_ndarray dt_float32 (nd_shape a) data).
End Conversions.

(** [a.reshape(dims)], where one dimension may be [-1]. *)
Definition known_dims (dims : list Z) : list Z :=
  filter (fun d => negb (d =? -1)) dims.

Definition count_auto (dims : list Z) : nat :=
  length (filter (fun d => d =? -1) dims).

Definition reshape (dims : list Z) (a : ndarray) : result ndarray :=
  let n := size a in
  let p := prodZ (known_dims dims) in
  if existsb (fun d => d <? -1) dims then
    Err (ValueError "negative dimensions not allowed")
  else
    match count_auto dims with
    | O =>
        if p =? n then Ok (mk_ndarray (nd_dtype a) dims (nd_data a))
        else Err (ValueError "cannot reshape array")
    | S O =>
        if (p =? 0) || negb (n mod p =? 0) then
          Err (ValueError "cannot reshape array")
        else
          Ok (mk_ndarray (nd_dtype a)
                (map (fun d => if d =? -1 then n / p else d) dims)
                (nd_data a))
    | _ => Err (ValueError "can only specify one unknown dimension")
    end.

(** [count] consecutive blocks of [len] elements. *)
Fixpoint blocks {A} (count len : nat) (l : list A) : list (list A) :=
  match count with
  | O => []
  | S c => firstn len l :: blocks c len (skipn len l)
  end.

(** The rows of a two-dimensional array. *)
Definition rows (a : ndarray) : list (list scalar) :=
  match nd_shape a with
  | [n; k] => blocks (Z.to_nat n) (Z.to_nat k) (nd_data a)
  | _ => []
  end.

(** Shapes that may be joined along axis 1: same number of axes (at least
    two), same extent on every axis but the second. *)
Definition joinable (s t : list Z) : bool :=
  match s, t with
  | d0 :: _ :: rest, e0 :: _ :: rest' =>
      (d0 =? e0) && shape_eqb rest rest'
  | _, _ => false
  end.

Definition axis1 (s : list Z) : Z := nth 1 s 0.

(** The [i]-th slice along axis 0, flattened. *)
Definition slice0 (i : nat) (a : ndarray) : list scalar :=
  let len := Z.to_nat (prodZ (tl (nd_shape a))) in
  firstn len (skipn (i * len) (nd_data a)).

(** [np.concatenate(arrays, axis=1)] *)
Definition concatenate1 (arrays : list ndarray) : result ndarray :=
  match arrays with
  | [] => Err (ValueError "need at least one array to concatenate")
  | a :: rest =>
      if forallb (fun b => joinable (nd_shape a) (nd_shape b)) arrays then
        let d0 := hd 0 (nd_shape a) in
        Ok (mk_ndarray
              (result_type a rest)
              (d0
               :: fold_right Z.add 0 (map (fun b => axis1 (nd_shape b)) arrays)
               :: tl (tl (nd_shape a)))
              (flat_map (fun i => flat_map (slice0 i) arrays)
                        (seq 0 (Z.to_nat d0))))
      else
        Err (ValueError "all the input array dimensions must match exactly")
  end.

(** [a[0]] *)
Definition index0 (a : ndarray) : result ndarray :=
  match nd_shape a with
  | [] => Err (IndexError "too many indices for array")
  | d0 :: rest =>
      if 0 <? d0 then
        Ok (mk_ndarray (nd_dtype a) rest (slice0 0 a))
      else Err (IndexError "index 0 is out of bounds for axis 0 with size 0")
  end.

(** [a.shape[1]] *)
Definition shape1 (a : ndarray) : result Z :=
  match nd_shape a with
  | _ :: d1 :: _ => Ok d1
  | _ => Err (IndexError "tuple index out of range")
  end.

End np.

(** ** Python built-ins the wrapper uses *)

(** [a // b] on integers: floor division, [ZeroDivisionError] on [b = 0]. *)
Definition py_floordiv (a b : Z) : result Z :=
  if b =? 0 then Err (ZeroDivisionError "integer division or modulo by zero")
  else Ok (a / b).

(** [len(v)] *)
Definition py_len (v : pyval) : result Z :=
  match v with
  | PyStr s => Ok (Z.of_nat (String.length s))
  | PyList l | PyTuple l => Ok (Z.of_nat (length l))
  | PyDict d => Ok (Z.of_nat (length d))
  | PyArray a =>
      match nd_shape a with
      | [] => Err (TypeError "len() of unsized object")
      | d :: _ => Ok d
      end
  | PyNone | PyInt _ | PyFloat _ => Err (TypeError "object has no len()")
  end.

(** Reading an attribute that was never assigned. *)
Definition getattr {A} (name : string) (field : option A) : result A :=
  match field with
  | Some a => Ok a
  | None => Err (AttributeError name)
  end.

(** ** The property setters both classes share

    [yolov4/tf/__init__.py] and [yolov4/tflite/__init__.py] carry the same
    text for the [anchors], [classes] and [xyscales] setters (and the tf
    class the same text again for [strides]).  Each is written here once, on
    the attribute it assigns: the argument is the attribute before the call
    ([None] while it was never assigned), the outcome the attribute after. *)

Module Setters.
Section Setters.
Variable round_f32 : Q -> Q.
Variable float_of_str : string -> option Q.
(** [media.read_classes_names], from the [utility] package. *)
Variable read_classes_names : string -> result pyval.

Definition keep_or_raise {A} (old : A) (r : result A) : outcome A :=
  match r with
  | Ok a => Returns a
  | Err e => Raises e old
  end.

(** [anchors.setter]:
<<
    if isinstance(anchors, (list, tuple)):
        self._anchors = np.array(anchors)
    elif isinstance(anchors, np.ndarray):
        self._anchors = anchors

    if self.tiny:
        self._anchors = self._anchors.astype(np.float32).reshape(2, 3, 2)
    else:
        self._anchors = self._anchors.astype(np.float32).reshape(3, 3, 2)
>>
    in two steps, the assignment and the conversion. *)
Definition anchors_assign (anchors : pyval) (old : option ndarray)
  : outcome (option ndarray) :=
  match anchors with
  | PyList _ | PyTuple _ =>
      match np.array anchors with
      | Ok a => Returns (Some a)
      | Err e => Raises e old
      end
  | PyArray a => Returns (Some a)
  | _ => Returns old
  end.

Definition anchors_reshape (tiny : bool) (cur : option ndarray)
  : outcome (option ndarray) :=
  keep_or_raise cur
    (a <- getattr "_anchors" cur ;;
     f <- np.astype_float32 round_f32 float_of_str a ;;
     r <- np.reshape [if tiny then 2 else 3; 3; 2] f ;;
     Ok (Some r)).

Definition anchors_setter (tiny : bool) (anchors : pyval)
  (old : option ndarray) : outcome (option ndarray) :=
  anchors_assign anchors old >>> anchors_reshape tiny.

(** [strides.setter] and [xyscales.setter]:
<<
    if isinstance(strides, (list, tuple)):
        self._strides = np.array(strides)
    elif isinstance(strides, np.ndarray):
        self._strides = strides
>> *)
Definition array_setter (v : pyval) (old : option ndarray)
  : outcome (option ndarray) :=
  match v with
  | PyList _ | PyTuple _ =>
      match np.array v with
      | Ok a => Returns (Some a)
      | Err e => Raises e old
      end
  | PyArray a => Returns (Some a)
  | _ => Returns old
  end.

(** [classes.setter]:
<<
    if isinstance(data, str):
        self._classes = media.read_classes_names(data)
    elif isinstance(data, dict):
        self._classes = data
    else:
        raise TypeError("YOLOv4: Set classes path or dictionary")
>> *)
Definition classes_setter (data : pyval) (old : pyval) : outcome pyval :=
  match data with
  | PyStr path =>
      match read_classes_names path with
      | Ok names => Returns names
      | Err e => Raises e old
      end
  | PyDict _ => Returns data
  | _ => Raises (TypeError "YOLOv4: Set classes path or dictionary") old
  end.

End Setters.
End Setters.

(** ** From raw outputs to one candidate list

    Both classes carry the same loop in [predict] (the tf class reshapes with
    [tf.reshape], the tflite class with [np.reshape]):
<<
    _candidates = []
    for candidate in candidates:
        grid_size = candidate.shape[1]
        _candidates.append(
            tf.reshape(candidate, shape=(1, grid_size * grid_size * 3, -1)))
>> *)
Definition flatten_scale (candidate : ndarray) : result ndarray :=
  grid_size <- np.shape1 candidate ;;
  np.reshape [1; grid_size * grid_size * 3; -1] candidate.

(** The loop, then [np.concatenate(_candidates, axis=1)], then the
    [candidates[0]] that is handed to the decoder. *)
Definition gather (candidates : list ndarray) : result ndarray :=
  _candidates <- np.sequence (map flatten_scale candidates) ;;
  all <- np.concatenate1 _candidates ;;
  np.index0 all.

(** The candidate rows one scale contributes: grid_size * grid_size * 3. *)
Definition candidate_rows (candidate : ndarray) : Z :=
  let grid_size := nth 1 (nd_shape candidate) 0 in
  grid_size * grid_size * 3.

Definition total_rows (candidates : list ndarray) : Z :=
  fold_right Z.add 0 (map candidate_rows candidates).

(** A raw output of one scale that holds [k] numbers for each candidate: at
    least two axes, a positive grid size on the second, and
    grid_size * grid_size * 3 * [k] elements, as the outputs of shape
    (1, grid, grid, 3, k) and (1, grid, grid, 3 * k) do. *)
Definition scale_output (k : Z) (candidate : ndarray) : Prop :=
  (2 <= length (nd_shape candidate))%nat
  /\ 0 < nth 1 (nd_shape candidate) 0
  /\ np.size candidate = candidate_rows candidate * k.

(** One scale after the loop: shape (1, grid_size * grid_size * 3, k). *)
Definition flattened (k : Z) (candidate : ndarray) : ndarray :=
  mk_ndarray (nd_dtype candidate) [1; candidate_rows candidate; k]
    (nd_data candidate).

(** The candidates of one scale as a table of [k] columns. *)
Definition table (k : Z) (candidate : ndarray) : ndarray :=
  mk_ndarray (nd_dtype candidate) [candidate_rows candidate; k]
    (nd_data candidate).

(** ** [yolov4/tf/__init__.py]: class [YOLOv4] *)

(** [train.YOLOv4Loss(batch_size=..., iou_type=...)] and
    [dataset.Dataset(...)]: the classes live in [train.py] and [dataset.py];
    an instance is represented by the keyword arguments it is built from. *)
Record YOLOv4Loss : Type := mk_YOLOv4Loss {
  loss_batch_size : Z;
  loss_iou_type : string
}.

Record Dataset : Type := mk_Dataset {
  ds_anchors : ndarray;
  ds_batch_size : Z;
  ds_dataset_path : string;
  ds_dataset_type : string;
  ds_data_augmentation : bool;
  ds_input_size : Z;
  ds_num_classes : Z;
  ds_strides : ndarray;
  ds_xyscales : ndarray
}.

(** What happened to the process-wide Keras backend, oldest first. *)
Inductive backend_event : Type :=
| ClearSession
| ModelConstructed.

Module tf.

(** The instance attributes.  On the four attributes behind a property
    ([_anchors], [_input_size], [_strides], [_xyscales]) [None] stands for
    an attribute that does not exist yet; [model] exists from [__init__] on
    and its [None] is Python's, as is the [PyNone] of [_classes]. *)
Record YOLOv4 (Model : Type) : Type := mk_YOLOv4 {
  tiny : bool;
  tpu : bool;
  _anchors : option ndarray;
  batch_size : Z;
  subdivision : Z;
  _classes : pyval;
  _has_weights : bool;
  _input_size : option Z;
  model : option Model;
  _strides : option ndarray;
  _xyscales : option ndarray
}.

(** The object together with the process-wide backend it lives in. *)
Record process (Model : Type) : Type := mk_process {
    self : YOLOv4 Model;
    backend_log : list backend_event
  }.

Section YOLOv4.
(** NumPy's conversions and [media.read_classes_names]. *)
Variable round_f32 : Q -> Q.
Variable float_of_str : string -> option Q.
Variable read_classes_names : string -> result pyval.

(** Keras, and the packages of the repository the wrapper delegates to
    ([model.yolov4], [tf.weights], [utility.media], [utility.predict]). *)
Variable Model : Type.
Variable KInput : Type.
Variable Optimizer : Type.
Variable Image : Type.
Variable layers_Input : list Z -> result KInput.
Variable yolov4_YOLOv4Tiny :
  ndarray -> Z -> ndarray -> string -> bool -> result Model.
Variable yolov4_YOLOv4 :
  ndarray -> Z -> ndarray -> string -> string -> result Model.
Variable model_call : Model -> KInput -> outcome Model.
Variable weights_load_weights :
  option Model -> string -> bool -> outcome (option Model).
Variable model_load_weights : Model -> string -> outcome Model.
Variable model_compile : Model -> Optimizer -> YOLOv4Loss -> outcome Model.
Variable model_predict : Model -> Image -> result (list ndarray).
Variable media_resize_image : Image -> Z -> result Image.
Variable image_shape : Image -> list Z.
(** [image_data / 255], then
    [image_data[np.newaxis, ...].astype(np.float32)]. *)
Variable to_batch : Image -> Image.
Variable predict_candidates_to_pred_bboxes : ndarray -> Z -> result ndarray.
Variable predict_fit_pred_bboxes_to_original :
  ndarray -> list Z -> result ndarray.

Local Abbreviation obj := (YOLOv4 Model).

Definition with_anchors (s : obj) (a : option ndarray) : obj :=
  mk_YOLOv4 (tiny s) (tpu s) a (batch_size s) (subdivision s) (_classes s)
    (_has_weights s) (_input_size s) (model s) (_strides s) (_xyscales s).
Definition with_batch_size (s : obj) (b : Z) : obj :=
  mk_YOLOv4 (tiny s) (tpu s) (_anchors s) b (subdivision s) (_classes s)
    (_has_weights s) (_input_size s) (model s) (_strides s) (_xyscales s).
Definition with_subdivision (s : obj) (d : Z) : obj :=
  mk_YOLOv4 (tiny s) (tpu s) (_anchors s) (batch_size s) d (_classes s)
    (_has_weights s) (_input_size s) (model s) (_strides s) (_xyscales s).
Definition with_classes (s : obj) (c : pyval) : obj :=
  mk_YOLOv4 (tiny s) (tpu s) (_anchors s) (batch_size s) (subdivision s) c
    (_has_weights s) (_input_size s) (model s) (_strides s) (_xyscales s).
Definition with_has_weights (s : obj) (b : bool) : obj :=
  mk_YOLOv4 (tiny s) (tpu s) (_anchors s) (batch_size s) (subdivision s)
    (_classes s) b (_input_size s) (model s) (_strides s) (_xyscales s).
Definition with_input_size (s : obj) (n : option Z) : obj :=
  mk_YOLOv4 (tiny s) (tpu s) (_anchors s) (batch_size s) (subdivision s)
    (_classes s) (_has_weights s) n (model s) (_strides s) (_xyscales s).
Definition with_model (s : obj) (m : option Model) : obj :=
  mk_YOLOv4 (tiny s) (tpu s) (_anchors s) (batch_size s) (subdivision s)
    (_classes s) (_has_weights s) (_input_size s) m (_strides s)
    (_xyscales s).
Definition with_strides (s : obj) (a : option ndarray) : obj :=
  mk_YOLOv4 (tiny s) (tpu s) (_anchors s) (batch_size s) (subdivision s)
    (_classes s) (_has_weights s) (_input_size s) (model s) a (_xyscales s).
Definition with_xyscales (s : obj) (a : option ndarray) : obj :=
  mk_YOLOv4 (tiny s) (tpu s) (_anchors s) (batch_size s) (subdivision s)
    (_classes s) (_has_weights s) (_input_size s) (model s) (_strides s) a.

(** Lifts a setter on one attribute to the object. *)
Definition lift {A} (put : obj -> A -> obj) (s : obj) (o : outcome A)
  : outcome obj :=
  match o with
  | Returns a => Returns (put s a)
  | Raises e a => Raises e (put s a)
  end.

(** *** Properties *)

Definition set_anchors (anchors : pyval) (s : obj) : outcome obj :=
  lift with_anchors s
    (Setters.anchors_setter round_f32 float_of_str (tiny s) anchors
       (_anchors s)).

Definition set_classes (data : pyval) (s : obj) : outcome obj :=
  lift with_classes s
    (Setters.classes_setter read_classes_names data (_classes s)).

(** [input_size.setter], for an integer [size]; Python's [%] takes the
    sign of the divisor, as [Z.modulo] does:
<<
    if size % 32 == 0:
        self._input_size = size
    else:
        raise ValueError("YOLOv4: Set input_size to multiples of 32")
>> *)
Definition set_input_size (size : Z) (s : obj) : outcome obj :=
  if size mod 32 =? 0 then Returns (with_input_size s (Some size))
  else Raises (ValueError "YOLOv4: Set input_size to multiples of 32") s.

Definition set_strides (strides : pyval) (s : obj) : outcome obj :=
  lift with_strides s (Setters.array_setter strides (_strides s)).

Definition set_xyscales (xyscales : pyval) (s : obj) : outcome obj :=
  lift with_xyscales s (Setters.array_setter xyscales (_xyscales s)).

Definition anchors (s : obj) : result ndarray :=
  getattr "_anchors" (_anchors s).
Definition classes (s : obj) : pyval := _classes s.
Definition input_size (s : obj) : result Z :=
  getattr "_input_size" (_input_size s).
Definition strides (s : obj) : result ndarray :=
  getattr "_strides" (_strides s).
Definition xyscales (s : obj) : result ndarray :=
  getattr "_xyscales" (_xyscales s).

(** *** [__init__] *)

Definition ints (l : list Z) : pyval := PyList (map PyInt l).
Definition pairs (l : list (Z * Z)) : pyval :=
  PyList (map (fun p => ints [fst p; snd p]) l).

Definition default_anchors (tiny : bool) : pyval :=
  if tiny then
    PyList [pairs [(23, 27); (37, 58); (81, 82)];
            pairs [(81, 82); (135, 169); (344, 319)]]
  else
    PyList [pairs [(12, 16); (19, 36); (40, 28)];
            pairs [(36, 75); (76, 55); (72, 146)];
            pairs [(142, 110); (192, 243); (459, 401)]].

Definition default_strides (tiny : bool) : pyval :=
  if tiny then ints [16; 32] else ints [8; 16; 32].

(** The float literals [1.2], [1.1], [1.05], by their decimal value. *)
Definition default_xyscales (tiny : bool) : pyval :=
  if tiny then PyList [PyFloat (105 # 100); PyFloat (105 # 100)]
  else PyList [PyFloat (12 # 10); PyFloat (11 # 10); PyFloat (105 # 100)].

(** The object when [__init__] starts: [tiny] and [tpu] are assigned first;
    the fields assigned by plain statements further down hold their
    [__init__] value from the start, the properties are still unset. *)
Definition fresh (tiny tpu : bool) : obj :=
  mk_YOLOv4 tiny tpu None 32 16 PyNone false None None None None.

Definition init (tiny tpu : bool) : outcome obj :=
  set_anchors (default_anchors tiny) (fresh tiny tpu) >>> fun s =>
  set_input_size 608 s >>> fun s =>
  set_strides (default_strides tiny) s >>> fun s =>
  set_xyscales (default_xyscales tiny) s.

(** *** Model construction and weights *)

(** [make_model]:
<<
    self._has_weights = False
    backend.clear_session()

    inputs = layers.Input([self.input_size, self.input_size, 3])
    if self.tiny:
        self.model = yolov4.YOLOv4Tiny(anchors=self.anchors,
            num_classes=len(self.classes), xyscales=self.xyscales,
            activation=activation1, tpu=self.tpu)
    else:
        self.model = yolov4.YOLOv4(anchors=self.anchors,
            num_classes=len(self.classes), xyscales=self.xyscales,
            activation0=activation0, activation1=activation1)
    self.model(inputs)
>> *)
Definition construct (activation0 activation1 : string) (s : obj)
  : result Model :=
  a <- anchors s ;;
  n <- py_len (classes s) ;;
  x <- xyscales s ;;
  if tiny s then yolov4_YOLOv4Tiny a n x activation1 (tpu s)
  else yolov4_YOLOv4 a n x activation0 activation1.

Definition make_model (activation0 activation1 : string)
  (p : process Model) : outcome (process Model) :=
  let s := with_has_weights (self p) false in
  let log := backend_log p ++ [ClearSession] in
  match (size <- input_size s ;; layers_Input [size; size; 3]) with
  | Err e => Raises e (mk_process s log)
  | Ok inputs =>
      match construct activation0 activation1 s with
      | Err e => Raises e (mk_process s log)
      | Ok m =>
          let log := log ++ [ModelConstructed] in
          match model_call m inputs with
          | Returns m' => Returns (mk_process (with_model s (Some m')) log)
          | Raises e m' => Raises e (mk_process (with_model s (Some m')) log)
          end
      end
  end.

(** [load_weights]:
<<
    if weights_type == "yolo":
        weights.load_weights(self.model, weights_path, tiny=self.tiny)
    elif weights_type == "tf":
        self.model.load_weights(weights_path)

    self._has_weights = True
>> *)
Definition load_into_model (weights_path weights_type : string) (s : obj)
  : outcome obj :=
  if String.eqb weights_type "yolo" then
    lift with_model s (weights_load_weights (model s) weights_path (tiny s))
  else if String.eqb weights_type "tf" then
    match model s with
    | None =>
        Raises (AttributeError "'NoneType' object has no attribute 'load_weights'") s
    | Some m =>
        lift with_model s
          (match model_load_weights m weights_path with
           | Returns m' => Returns (Some m')
           | Raises e m' => Raises e (Some m')
           end)
    end
  else Returns s.

Definition load_weights (weights_path weights_type : string) (s : obj)
  : outcome obj :=
  load_into_model weights_path weights_type s >>> fun s =>
  Returns (with_has_weights s true).

(** *** Training *)

(** [self.batch_size // self.subdivision] *)
Definition step_batch_size (s : obj) : result Z :=
  py_floordiv (batch_size s) (subdivision s).

(** [load_dataset]: the arguments of [dataset.Dataset], evaluated in the
    order they are written. *)
Definition load_dataset (dataset_path dataset_type : string)
  (training : bool) (s : obj) : result Dataset :=
  a <- anchors s ;;
  b <- step_batch_size s ;;
  size <- input_size s ;;
  n <- py_len (classes s) ;;
  st <- strides s ;;
  x <- xyscales s ;;
  Ok (mk_Dataset a b dataset_path dataset_type training size n st x).

(** [compile]:
<<
    self.model.compile(optimizer=optimizer,
        loss=train.YOLOv4Loss(
            batch_size=self.batch_size // self.subdivision,
            iou_type=loss_iou_type))
>> *)
Definition compile (optimizer : Optimizer) (loss_iou_type : string)
  (s : obj) : outcome obj :=
  match model s with
  | None =>
      Raises (AttributeError "'NoneType' object has no attribute 'compile'") s
  | Some m =>
      match step_batch_size s with
      | Err e => Raises e s
      | Ok b =>
          lift with_model s
            (match model_compile m optimizer
                     (mk_YOLOv4Loss b loss_iou_type) with
             | Returns m' => Returns (Some m')
             | Raises e m' => Raises e (Some m')
             end)
      end
  end.

(** *** Inference *)

(** [predict]:
<<
    image_data = self.resize_image(frame)
    image_data = image_data / 255
    image_data = image_data[np.newaxis, ...].astype(np.float32)

    candidates = self.model.predict(image_data)
    _candidates = []
    for candidate in candidates:
        ...
    candidates = np.concatenate(_candidates, axis=1)

    pred_bboxes = self.candidates_to_pred_bboxes(candidates[0])
    pred_bboxes = self.fit_pred_bboxes_to_original(pred_bboxes, frame.shape)
    return pred_bboxes
>>
    where [resize_image] and [candidates_to_pred_bboxes] hand
    [self.input_size] to [media.resize_image] and to
    [predict.candidates_to_pred_bboxes]. *)
Definition predict (frame : Image) (s : obj) : result ndarray :=
  size <- input_size s ;;
  image_data <- media_resize_image frame size ;;
  let image_data := to_batch image_data in
  m <- getattr "predict" (model s) ;;
  candidates <- model_predict m image_data ;;
  c0 <- gather candidates ;;
  size' <- input_size s ;;
  pred_bboxes <- predict_candidates_to_pred_bboxes c0 size' ;;
  predict_fit_pred_bboxes_to_original pred_bboxes (image_shape frame).

(** *** A session with one object

    The calls a user makes on the object, one after the other; a call that
    raises leaves the object as the raise found it and the session goes on.
    [predict], [load_dataset], [fit], [inference] and [save_as_tflite] assign
    no attribute of the object and are left out. *)
Inductive call : Type :=
| SetAnchors (anchors : pyval)
| SetClasses (data : pyval)
| SetInputSize (size : Z)
| SetStrides (strides : pyval)
| SetXyscales (xyscales : pyval)
| SetBatchSize (n : Z)
| SetSubdivision (n : Z)
| MakeModel (activation0 activation1 : string)
| LoadWeights (weights_path weights_type : string)
| Compile (optimizer : Optimizer) (loss_iou_type : string).

Definition on_self (f : obj -> outcome obj) (p : process Model)
  : outcome (process Model) :=
  match f (self p) with
  | Returns s => Returns (mk_process s (backend_log p))
  | Raises e s => Raises e (mk_process s (backend_log p))
  end.

Definition step (c : call) (p : process Model) : outcome (process Model) :=
  match c with
  | SetAnchors v => on_self (set_anchors v) p
  | SetClasses v => on_self (set_classes v) p
  | SetInputSize n => on_self (set_input_size n) p
  | SetStrides v => on_self (set_strides v) p
  | SetXyscales v => on_self (set_xyscales v) p
  | SetBatchSize n => on_self (fun s => Returns (with_batch_size s n)) p
  | SetSubdivision n => on_self (fun s => Returns (with_subdivision s n)) p
  | MakeModel a0 a1 => make_model a0 a1 p
  | LoadWeights path type => on_self (load_weights path type) p
  | Compile opt iou => on_self (compile opt iou) p
  end.

Definition run (calls : list call) (p : process Model) : process Model :=
  fold_left (fun p c => after (step c p)) calls p.

Definition is_make_model (c : call) : bool :=
  match c with
  | MakeModel _ _ => true
  | _ => false
  end.

Definition has_weights (p : process Model) : bool := _has_weights (self p).

(** The calls that assign [_has_weights]: [make_model], and [load_weights]
    when it gets to its last line. *)
Definition assigns_flag (c : call) (p : process Model) : bool :=
  match c with
  | MakeModel _ _ => true
  | LoadWeights _ _ => returned (step c p)
  | _ => false
  end.

End YOLOv4.
End tf.

(** ** [yolov4/tflite/__init__.py]: class [YOLOv4] *)

Module tflite.

(** Here [input_size] is a plain attribute, [None] until [load_tflite]
    reads it from the interpreter; [option] on the four interpreter
    attributes stands for Python's [None]. *)
Record YOLOv4 (Interpreter : Type) : Type := mk_YOLOv4 {
  tiny : bool;
  tpu : bool;
  _anchors : option ndarray;
  _classes : pyval;
  input_index : option Z;
  input_size : option Z;
  interpreter : option Interpreter;
  output_index : option (list Z);
  output_size : option (list Z);
  _xyscales : option ndarray
}.

Section YOLOv4.
Variable round_f32 : Q -> Q.
Variable float_of_str : string -> option Q.
Variable read_classes_names : string -> result pyval.

(** The TFLite interpreter and the [utility] package. *)
Variable Interpreter : Type.
Variable Image : Type.
Variable interpreter_set_tensor :
  Interpreter -> option Z -> Image -> outcome Interpreter.
Variable interpreter_invoke : Interpreter -> outcome Interpreter.
Variable interpreter_get_tensor : Interpreter -> Z -> result ndarray.
Variable media_resize_image : Image -> option Z -> result Image.
Variable image_shape : Image -> list Z.
Variable to_batch : Image -> Image.
Variable predict_candidates_to_pred_bboxes :
  ndarray -> option Z -> result ndarray.
Variable predict_fit_pred_bboxes_to_original :
  ndarray -> list Z -> result ndarray.

Local Abbreviation obj := (YOLOv4 Interpreter).

Definition with_anchors (s : obj) (a : option ndarray) : obj :=
  mk_YOLOv4 (tiny s) (tpu s) a (_classes s) (input_index s) (input_size s)
    (interpreter s) (output_index s) (output_size s) (_xyscales s).
Definition with_classes (s : obj) (c : pyval) : obj :=
  mk_YOLOv4 (tiny s) (tpu s) (_anchors s) c (input_index s) (input_size s)
    (interpreter s) (output_index s) (output_size s) (_xyscales s).
Definition with_interpreter (s : obj) (i : option Interpreter) : obj :=
  mk_YOLOv4 (tiny s) (tpu s) (_anchors s) (_classes s) (input_index s)
    (input_size s) i (output_index s) (output_size s) (_xyscales s).
Definition with_xyscales (s : obj) (a : option ndarray) : obj :=
  mk_YOLOv4 (tiny s) (tpu s) (_anchors s) (_classes s) (input_index s)
    (input_size s) (interpreter s) (output_index s) (output_size s) a.

Definition lift {A} (put : obj -> A -> obj) (s : obj) (o : outcome A)
  : outcome obj :=
  match o with
  | Returns a => Returns (put s a)
  | Raises e a => Raises e (put s a)
  end.

Definition set_anchors (anchors : pyval) (s : obj) : outcome obj :=
  lift with_anchors s
    (Setters.anchors_setter round_f32 float_of_str (tiny s) anchors
       (_anchors s)).

Definition set_classes (data : pyval) (s : obj) : outcome obj :=
  lift with_classes s
    (Setters.classes_setter read_classes_names data (_classes s)).

Definition set_xyscales (xyscales : pyval) (s : obj) : outcome obj :=
  lift with_xyscales s (Setters.array_setter xyscales (_xyscales s)).

Definition fresh (tiny tpu : bool) : obj :=
  mk_YOLOv4 tiny tpu None PyNone None None None None None None.

(** [__init__]: the same default anchors and xyscales as the tf class. *)
Definition init (tiny tpu : bool) : outcome obj :=
  set_anchors (tf.default_anchors tiny) (fresh tiny tpu) >>> fun s =>
  set_xyscales (tf.default_xyscales tiny) s.

(** [predict], up to [self.interpreter.invoke()]: the interpreter is fed
    and run. *)
Definition run_interpreter (frame : Image) (s : obj) : outcome obj :=
  match media_resize_image frame (input_size s) with
  | Err e => Raises e s
  | Ok image_data =>
      let image_data := to_batch image_data in
      match interpreter s with
      | None =>
          Raises (AttributeError "'NoneType' object has no attribute 'set_tensor'") s
      | Some i =>
          lift with_interpreter s
            (match interpreter_set_tensor i (input_index s) image_data with
             | Raises e i' => Raises e (Some i')
             | Returns i' =>
                 match interpreter_invoke i' with
                 | Raises e i'' => Raises e (Some i'')
                 | Returns i'' => Returns (Some i'')
                 end
             end)
      end
  end.

(** [predict], from the list comprehension on:
<<
    candidates = [
        self.interpreter.get_tensor(index) for index in self.output_index
    ]
>>
    and then as in the tf class. *)
Definition get_tensor (s : obj) (index : Z) : result ndarray :=
  i <- getattr "get_tensor" (interpreter s) ;;
  interpreter_get_tensor i index.

Definition read_boxes (frame : Image) (s : obj) : result ndarray :=
  match output_index s with
  | None => Err (TypeError "'NoneType' object is not iterable")
  | Some indices =>
      candidates <- np.sequence (map (get_tensor s) indices) ;;
      c0 <- gather candidates ;;
      pred_bboxes <- predict_candidates_to_pred_bboxes c0 (input_size s) ;;
      predict_fit_pred_bboxes_to_original pred_bboxes (image_shape frame)
  end.

Definition predict (frame : Image) (s : obj) : obj * result ndarray :=
  match run_interpreter frame s with
  | Returns s' => (s', read_boxes frame s')
  | Raises e s' => (s', Err e)
  end.

End YOLOv4.
End tflite.

(** ** Overlap metric *)

Module Overlap.
Local Open Scope Q_scope.

(** Modelled from the spec: the box type of the overlap metrics (the module
    that computes IoU is not among the sources).  A box in center-size form,
    the "Decoded box" of the data model, over the rationals. *)
Record box : Type := mk_box {
  center_x : Q;
  center_y : Q;
  width : Q;
  height : Q
}.

Definition x_min (b : box) : Q := center_x b - width b / 2.
Definition x_max (b : box) : Q := center_x b + width b / 2.
Definition y_min (b : box) : Q := center_y b - height b / 2.
Definition y_max (b : box) : Q := center_y b + height b / 2.

Definition area (b : box) : Q := width b * height b.

(** Length of the common part of [lo1, hi1] and [lo2, hi2]; 0 when they do
    not meet. *)
Definition common (lo1 hi1 lo2 hi2 : Q) : Q :=
  Qmax 0 (Qmin hi1 hi2 - Qmax lo1 lo2).

Definition intersection (a b : box) : Q :=
  common (x_min a) (x_max a) (x_min b) (x_max b)
  * common (y_min a) (y_max a) (y_min b) (y_max b).

Definition union (a b : box) : Q := area a + area b - intersection a b.

(** Modelled from the spec: the IoU function, which is not among the
    sources.  "IoU(A, B) = intersection-area / union-area, 0 when boxes do
    not overlap", with the "union-area floor at a small epsilon". *)
Definition IoU (epsilon : Q) (a b : box) : Q :=
  intersection a b / Qmax (union a b) epsilon.

Definition well_formed (b : box) : Prop := 0 <= width b /\ 0 <= height b.
Definition non_degenerate (b : box) : Prop := 0 < width b /\ 0 < height b.
Definition degenerate (b : box) : Prop := width b == 0 \/ height b == 0.

End Overlap.

(** ** Weight-file importer *)

Module Weights.

(** Modelled from the spec: a 32-bit float of the weight file (the importer,
    [tf/weights.py], is not among the sources).  The four bytes as they stand
    in the file, so that equal values are bit-identical. *)
Definition float32 : Type := (Byte.byte * Byte.byte * Byte.byte * Byte.byte)%type.

(** Modelled from the spec: one convolutional layer of the topology, in
    network construction order: output and input channel counts, kernel
    height and width, and whether batch normalization follows. *)
Record conv_layer : Type := mk_conv_layer {
  output_channels : nat;
  input_channels : nat;
  kernel_h : nat;
  kernel_w : nat;
  batch_normalization : bool
}.

(** Modelled from the spec: the parameter block read for one layer.  With
    batch normalization the four vectors (bias, scale, mean, variance), else
    the plain bias; then the kernel weights. *)
Record conv_params : Type := mk_conv_params {
  bias : list float32;
  scale_mean_variance : option (list float32 * list float32 * list float32);
  kernel : list float32
}.

(** Modelled from the spec: the fixed-size header, version (3 x int32) and
    seen-images count (int64), kept as the bytes read. *)
Record header : Type := mk_header {
  version : list Byte.byte;
  images_seen : list Byte.byte
}.

Definition header_bytes : nat := 20.

Definition short : exn := FormatError "weight file is shorter than expected".
Definition overlong : exn := FormatError "unconsumed bytes after the last layer".

(** Modelled from the spec: reading [n] floats off the front of the file,
    "failing fast on short reads". *)
Fixpoint read_floats (n : nat) (bs : list Byte.byte)
  : result (list float32 * list Byte.byte) :=
  match n with
  | O => Ok ([], bs)
  | S n' =>
      match bs with
      | b0 :: b1 :: b2 :: b3 :: rest =>
          match read_floats n' rest with
          | Ok (fs, rest') => Ok ((b0, b1, b2, b3) :: fs, rest')
          | Err e => Err e
          end
      | _ => Err short
      end
  end.

Definition kernel_floats (l : conv_layer) : nat :=
  (output_channels l * input_channels l * kernel_h l * kernel_w l)%nat.

Definition layer_floats (l : conv_layer) : nat :=
  ((if batch_normalization l then 4 * output_channels l
    else output_channels l) + kernel_floats l)%nat.

Definition total_floats (topology : list conv_layer) : nat :=
  fold_right (fun l acc => (layer_floats l + acc)%nat) O topology.

(** Modelled from the spec: the block of one layer, "(bias, scale, mean,
    variance) vectors sized to the layer's output channel count, in that
    order, before reading the convolution kernel weights", or "a plain bias
    vector sized to output channels before the kernel weights". *)
Definition read_layer (l : conv_layer) (bs : list Byte.byte)
  : result (conv_params * list Byte.byte) :=
  let n := output_channels l in
  if batch_normalization l then
    match read_floats n bs with
    | Err e => Err e
    | Ok (b, bs) =>
    match read_floats n bs with
    | Err e => Err e
    | Ok (s, bs) =>
    match read_floats n bs with
    | Err e => Err e
    | Ok (m, bs) =>
    match read_floats n bs with
    | Err e => Err e
    | Ok (v, bs) =>
    match read_floats (kernel_floats l) bs with
    | Err e => Err e
    | Ok (k, bs) => Ok (mk_conv_params b (Some (s, m, v)) k, bs)
    end end end end end
  else
    match read_floats n bs with
    | Err e => Err e
    | Ok (b, bs) =>
    match read_floats (kernel_floats l) bs with
    | Err e => Err e
    | Ok (k, bs) => Ok (mk_conv_params b None k, bs)
    end end.

Fixpoint read_layers (topology : list conv_layer) (bs : list Byte.byte)
  : result (list conv_params * list Byte.byte) :=
  match topology with
  | [] => Ok ([], bs)
  | l :: ls =>
      match read_layer l bs with
      | Err e => Err e
      | Ok (p, bs) =>
          match read_layers ls bs with
          | Err e => Err e
          | Ok (ps, bs) => Ok (p :: ps, bs)
          end
      end
  end.

Definition read_header (bs : list Byte.byte)
  : result (header * list Byte.byte) :=
  if (length bs <? header_bytes)%nat then Err short
  else Ok (mk_header (firstn 12 bs) (firstn 8 (skipn 12 bs)),
           skipn header_bytes bs).

(** Modelled from the spec: the import of one weight file for one topology.
    "Fails with a FormatError if the file is shorter than the total expected
    float count, or if unconsumed bytes remain after the last layer". *)
Definition import (topology : list conv_layer) (file : list Byte.byte)
  : result (list conv_params) :=
  match read_header file with
  | Err e => Err e
  | Ok (_, bs) =>
      match read_layers topology bs with
      | Err e => Err e
      | Ok (blocks, []) => Ok blocks
      | Ok (_, _ :: _) => Err overlong
      end
  end.

(** Modelled from the spec: installing the imported blocks in the model,
    "no partial model state left installed" on a failure.  The argument is
    what the model holds before the call. *)
Definition load_weights (topology : list conv_layer) (file : list Byte.byte)
  (installed : list conv_params) : outcome (list conv_params) :=
  match import topology file with
  | Ok blocks => Returns blocks
  | Err e => Raises e installed
  end.

Definition is_format_error (e : exn) : bool :=
  match e with
  | FormatError _ => true
  | _ => false
  end.

End Weights.

(** ** A concrete instance

    Instances of the collaborators for running the wrapper on examples: a
    NumPy whose binary32 rounding leaves the (small, integral) numbers of
    the examples as they are and that reads no number out of text, and Keras
    objects that carry no data. *)

Module Sample.

Definition round_f32 (q : Q) : Q := q.
Definition float_of_str (s : string) : option Q := None.
Definition read_classes_names (path : string) : result pyval :=
  if String.eqb path "coco.names" then
    Ok (PyDict [(PyInt 0, PyStr "person"); (PyInt 1, PyStr "bicycle")])
  else Err (ExternalError "No such file or directory").

Definition Model : Type := unit.

Definition obj : Type := tf.YOLOv4 Model.

(** [YOLOv4()] and [YOLOv4(tiny=True)] *)
Definition full : obj :=
  after (tf.init round_f32 float_of_str Model false false).
Definition tiny : obj :=
  after (tf.init round_f32 float_of_str Model true false).

Definition lite : tflite.YOLOv4 unit :=
  after (tflite.init round_f32 float_of_str unit true false).

Definition KInput : Type := unit.
Definition Optimizer : Type := unit.
Definition layers_Input (shape : list Z) : result KInput := Ok tt.
Definition yolov4_YOLOv4Tiny (anchors : ndarray) (num_classes : Z)
  (xyscales : ndarray) (activation : string) (tpu : bool) : result Model :=
  Ok tt.
Definition yolov4_YOLOv4 (anchors : ndarray) (num_classes : Z)
  (xyscales : ndarray) (activation0 activation1 : string) : result Model :=
  Ok tt.
Definition model_call (m : Model) (inputs : KInput) : outcome Model :=
  Returns m.
(** The one weight file at hand is "yolov4.weights". *)
Definition weights_load_weights (m : option Model) (path : string)
  (tiny : bool) : outcome (option Model) :=
  if String.eqb path "yolov4.weights" then Returns m
  else Raises (ExternalError "No such file or directory") m.
Definition model_load_weights (m : Model) (path : string) : outcome Model :=
  Returns m.
Definition model_compile (m : Model) (o : Optimizer) (loss : YOLOv4Loss)
  : outcome Model := Returns m.

Definition coco2 : pyval :=
  PyDict [(PyInt 0, PyStr "person"); (PyInt 1, PyStr "bicycle")].

Definition run : list (tf.call Optimizer) -> tf.process Model
                 -> tf.process Model :=
  tf.run round_f32 float_of_str read_classes_names layers_Input
    yolov4_YOLOv4Tiny yolov4_YOLOv4 model_call weights_load_weights
    model_load_weights model_compile.

(** [yolo = YOLOv4(); yolo.classes = {...}; yolo.make_model()] *)
Definition built : tf.process Model :=
  run [tf.SetClasses Optimizer coco2; tf.MakeModel Optimizer "mish" "leaky"]
      (tf.mk_process full []).

(** One raw output tensor of shape (1, g, g, 3, k), filled with 0, 1, 2... *)
Definition raw_output (g k : Z) : ndarray :=
  mk_ndarray dt_float32 [1; g; g; 3; k]
    (map (fun i => SFloat (inject_Z (Z.of_nat i)))
         (seq 0 (Z.to_nat (g * g * 3 * k)))).


(** A network with two output scales, grids 1 and 2, and two numbers for
    each candidate; images and interpreters that carry no data; decoders
    that hand the candidates on as they are. *)
Definition Image : Type := unit.
Definition outputs : list ndarray := [raw_output 1 2; raw_output 2 2].
Definition model_predict (m : Model) (image : Image) : result (list ndarray) :=
  Ok outputs.
Definition media_resize_image (image : Image) (target_size : Z)
  : result Image := Ok image.
Definition lite_resize_image (image : Image) (target_size : option Z)
  : result Image := Ok image.
Definition image_shape (image : Image) : list Z := [480; 640; 3].
Definition to_batch (image : Image) : Image := image.
Definition candidates_to_pred_bboxes (candidates : ndarray) (size : Z)
  : result ndarray := Ok candidates.
Definition lite_candidates_to_pred_bboxes (candidates : ndarray)
  (size : option Z) : result ndarray := Ok candidates.
Definition fit_pred_bboxes_to_original (pred_bboxes : ndarray)
  (original_shape : list Z) : result ndarray := Ok pred_bboxes.
Definition interpreter_set_tensor (i : unit) (index : option Z)
  (image : Image) : outcome unit := Returns i.
Definition interpreter_invoke (i : unit) : outcome unit := Returns i.
Definition interpreter_get_tensor (i : unit) (index : Z) : result ndarray :=
  if index =? 0 then Ok (raw_output 1 2)
  else if index =? 1 then Ok (raw_output 2 2)
  else Err (ValueError "Tensor index out of range").

(** The tflite object after [load_tflite]: an interpreter with input 0 of
    size 416 and outputs 0 and 1. *)
Definition loaded : tflite.YOLOv4 unit :=
  tflite.mk_YOLOv4 true false (tflite._anchors lite) (tflite._classes lite)
    (Some 0) (Some 416) (Some tt) (Some [0; 1]) None (tflite._xyscales lite).

End Sample.

(** ** [yolov4/tf/__init__.py]: [fit] and [save_as_tflite] *)

(** The keyword arguments [fit] hands to [self.model.fit], after the data
    set. *)
Record fit_arguments (Callbacks : Type) : Type := mk_fit_arguments {
  fit_epochs : Z;
  fit_verbose : Z;
  fit_callbacks : Callbacks;
  fit_batch_size : Z;
  fit_steps_per_epoch : Z
}.

Inductive lite_optimize : Type := Optimize_DEFAULT.
Inductive lite_ops : Type := TFLITE_BUILTINS_INT8.
Inductive tf_dtype : Type := tf_float16 | tf_int8.

(** The attributes [save_as_tflite] assigns on the converter; [None] is an
    attribute left as [TFLiteConverter.from_keras_model] made it. *)
Record converter_settings (Gen : Type) : Type := mk_converter_settings {
  optimizations : option (list lite_optimize);
  supported_types : option (list tf_dtype);
  representative_dataset : option Gen;
  supported_ops : option (list lite_ops);
  inference_input_type : option tf_dtype;
  inference_output_type : option tf_dtype
}.

(** How a run of the representative-dataset generator ends: after its last
    [yield]; inside [next(data_set)] on a data set that has run out (a
    [RuntimeError] in the generator from Python 3.7 on); or inside
    [next(data_set)] on a [data_set] that is [None]. *)
Inductive generator_end : Type :=
| Finished
| Starved
| NotAnIterator.

Module tf_rest.
Section YOLOv4.
Variable Model : Type.
Variable DataSet : Type.
Variable Callbacks : Type.
Variable model_fit :
  Model -> DataSet -> fit_arguments Callbacks -> outcome Model.

(** The iterator protocol of the data set: [next it] is the next
    [(images, labels)] and the iterator after it, [None] when the iterator
    is exhausted ([StopIteration]). *)
Variable Iterator : Type.
Variable Images : Type.
Variable Labels : Type.
Variable Sample : Type.
Variable next : Iterator -> option (Images * Labels * Iterator).
(** [tf.cast(images[0:1, ...], tf.float32)] *)
Variable first_image : Images -> Sample.

(** [tf.lite.TFLiteConverter] and [tf.io.gfile]. *)
Variable Converter : Type.
Variable Content : Type.
Variable Files : Type.

Local Abbreviation obj := (tf.YOLOv4 Model).
Local Abbreviation Gen :=
  (option Iterator -> list (list Sample) * generator_end * option Iterator).

Variable from_keras_model : option Model -> result Converter.
Variable convert : Converter -> converter_settings Gen -> result Content.
Variable gfile_write : Files -> string -> Content -> outcome Files.

(** [fit]:
<<
    self.model.fit(
        data_set,
        epochs=epochs,
        verbose=verbose,
        callbacks=callbacks,
        batch_size=self.batch_size // self.subdivision,
        steps_per_epoch=self.subdivision,
    )
>> *)
Definition fit (data_set : DataSet) (epochs verbose : Z)
  (callbacks : Callbacks) (s : obj) : outcome obj :=
  match tf.model s with
  | None =>
      Raises (AttributeError "'NoneType' object has no attribute 'fit'") s
  | Some m =>
      match tf.step_batch_size s with
      | Err e => Raises e s
      | Ok b =>
          tf.lift (@tf.with_model Model) s
            (match model_fit m data_set
                     (mk_fit_arguments epochs verbose callbacks b
                        (tf.subdivision s)) with
             | Returns m' => Returns (Some m')
             | Raises e m' => Raises e (Some m')
             end)
      end
  end.

(** The generator inside [save_as_tflite], run to its end on the data set
    as it stands; the result is what it yields, how it ends and the data
    set it leaves behind:
<<
    def representative_dataset_gen():
        for _ in range(20):
            images, _ = next(data_set)
            yield [tf.cast(images[0:1, ...], tf.float32)]
>> *)
Fixpoint generate (count : nat) (data_set : Iterator)
  : list (list Sample) * generator_end * option Iterator :=
  match count with
  | O => ([], Finished, Some data_set)
  | S count' =>
      match next data_set with
      | None => ([], Starved, Some data_set)
      | Some (images, _, data_set') =>
          let '(samples, e, rest) := generate count' data_set' in
          ([first_image images] :: samples, e, rest)
      end
  end.

Definition representative_dataset_gen (data_set : option Iterator)
  : list (list Sample) * generator_end * option Iterator :=
  match data_set with
  | None => ([], NotAnIterator, None)
  | Some it => generate 20 it
  end.

(** [count] times [next]: the batches drawn and the iterator left, [None]
    when the iterator runs out before. *)
Fixpoint draw (count : nat) (it : Iterator)
  : option (list (Images * Labels) * Iterator) :=
  match count with
  | O => Some ([], it)
  | S count' =>
      match next it with
      | None => None
      | Some (images, labels, it') =>
          match draw count' it' with
          | None => None
          | Some (batches, rest) => Some ((images, labels) :: batches, rest)
          end
      end
  end.

(** Truth value of [quantization]: [None] and the empty string are false. *)
Definition truthy (quantization : option string) : bool :=
  match quantization with
  | None => false
  | Some q => negb (String.eqb q EmptyString)
  end.

Definition equals (quantization : option string) (name : string) : bool :=
  match quantization with
  | None => false
  | Some q => String.eqb q name
  end.

Definition untouched : converter_settings Gen :=
  mk_converter_settings None None None None None None.

(** The assignments on the converter:
<<
    if quantization:
        converter.optimizations = [tf.lite.Optimize.DEFAULT]

    if quantization == "float16":
        converter.target_spec.supported_types = [tf.float16]
    elif quantization == "int":
        converter.representative_dataset = representative_dataset_gen
    elif quantization == "full_int8":
        converter.representative_dataset = representative_dataset_gen
        converter.target_spec.supported_ops = [
            tf.lite.OpsSet.TFLITE_BUILTINS_INT8
        ]
        converter.inference_input_type = tf.int8
        converter.inference_output_type = tf.int8
    elif quantization:
        raise ValueError(
            "YOLOv4: {} is not a valid option".format(quantization)
        )
>> *)
Definition configure (quantization : option string)
  : result (converter_settings Gen) :=
  let opt :=
    if truthy quantization then Some [Optimize_DEFAULT] else None in
  if equals quantization "float16" then
    Ok (mk_converter_settings opt (Some [tf_float16]) None None None None)
  else if equals quantization "int" then
    Ok (mk_converter_settings opt None (Some representative_dataset_gen)
          None None None)
  else if equals quantization "full_int8" then
    Ok (mk_converter_settings opt None (Some representative_dataset_gen)
          (Some [TFLITE_BUILTINS_INT8]) (Some tf_int8) (Some tf_int8))
  else
    match quantization with
    | Some q =>
        if truthy quantization then
          Err (ValueError ("YOLOv4: " ++ q ++ " is not a valid option")%string)
        else Ok (mk_converter_settings opt None None None None None)
    | None => Ok (mk_converter_settings opt None None None None None)
    end.

(** [save_as_tflite]: the converter is made of the model, configured,
    run, and its result written:
<<
    converter = tf.lite.TFLiteConverter.from_keras_model(self.model)
    ...
    tflite_model = converter.convert()
    with tf.io.gfile.GFile(tflite_path, "wb") as fd:
        fd.write(tflite_model)
>> *)
Definition save_as_tflite (tflite_path : string)
  (quantization : option string) (s : obj) (files : Files)
  : outcome Files :=
  match from_keras_model (tf.model s) with
  | Err e => Raises e files
  | Ok converter =>
      match configure quantization with
      | Err e => Raises e files
      | Ok settings =>
          match convert converter settings with
          | Err e => Raises e files
          | Ok tflite_model => gfile_write files tflite_path tflite_model
          end
      end
  end.

End YOLOv4.
End tf_rest.

(** ** Sessions, once more *)

(** The calls that assign a configuration attribute and nothing else. *)
Definition is_assignment {Optimizer : Type} (c : tf.call Optimizer) : bool :=
  match c with
  | tf.SetAnchors _ _ | tf.SetClasses _ _ | tf.SetInputSize _ _
  | tf.SetStrides _ _ | tf.SetXyscales _ _ | tf.SetBatchSize _ _
  | tf.SetSubdivision _ _ => true
  | _ => false
  end.

Definition is_clear (e : backend_event) : bool :=
  match e with
  | ClearSession => true
  | ModelConstructed => false
  end.

(** Every construction in the log comes right after a clearing; [cleared]
    tells whether the event before the log was a clearing. *)
Fixpoint constructed_in_cleared (cleared : bool) (log : list backend_event)
  : bool :=
  match log with
  | [] => true
  | ClearSession :: rest => constructed_in_cleared true rest
  | ModelConstructed :: rest => cleared && constructed_in_cleared false rest
  end.

(** ** [yolov4/tflite/__init__.py]: [load_tflite] *)

(** One entry of [get_input_details()] or [get_output_details()]: the
    values under the keys "shape" and "index". *)
Record tensor_details : Type := mk_tensor_details {
  details_shape : list Z;
  details_index : Z
}.

Module tflite_rest.
Section YOLOv4.
Variable Interpreter : Type.
(** [tflite.Interpreter(model_path=...)], with the Edge TPU delegate of
    [tflite.load_delegate("libedgetpu.so.1")] when the flag is set. *)
Variable tflite_Interpreter : string -> bool -> result Interpreter.
Variable allocate_tensors : Interpreter -> outcome Interpreter.
Variable get_input_details : Interpreter -> list tensor_details.
Variable get_output_details : Interpreter -> list tensor_details.

Local Abbreviation obj := (tflite.YOLOv4 Interpreter).

Definition with_input_size (s : obj) (n : option Z) : obj :=
  tflite.mk_YOLOv4 (tflite.tiny s) (tflite.tpu s) (tflite._anchors s)
    (tflite._classes s) (tflite.input_index s) n (tflite.interpreter s)
    (tflite.output_index s) (tflite.output_size s) (tflite._xyscales s).
Definition with_input_index (s : obj) (n : option Z) : obj :=
  tflite.mk_YOLOv4 (tflite.tiny s) (tflite.tpu s) (tflite._anchors s)
    (tflite._classes s) n (tflite.input_size s) (tflite.interpreter s)
    (tflite.output_index s) (tflite.output_size s) (tflite._xyscales s).
Definition with_output_size (s : obj) (l : option (list Z)) : obj :=
  tflite.mk_YOLOv4 (tflite.tiny s) (tflite.tpu s) (tflite._anchors s)
    (tflite._classes s) (tflite.input_index s) (tflite.input_size s)
    (tflite.interpreter s) (tflite.output_index s) l (tflite._xyscales s).
Definition with_output_index (s : obj) (l : option (list Z)) : obj :=
  tflite.mk_YOLOv4 (tflite.tiny s) (tflite.tpu s) (tflite._anchors s)
    (tflite._classes s) (tflite.input_index s) (tflite.input_size s)
    (tflite.interpreter s) l (tflite.output_size s) (tflite._xyscales s).

(** [details["shape"][1]] *)
Definition shape_1 (d : tensor_details) : result Z :=
  match details_shape d with
  | _ :: n :: _ => Ok n
  | _ => Err (IndexError "index 1 is out of bounds")
  end.

(** [load_tflite], after the interpreter is made and assigned:
<<
    self.interpreter.allocate_tensors()
    input_details = self.interpreter.get_input_details()[0]
    self.input_size = input_details["shape"][1]
    self.input_index = input_details["index"]
    output_details = self.interpreter.get_output_details()
    if self.tpu:
        self.output_size = [
            details["shape"][1] for details in output_details
        ]
    self.output_index = [details["index"] for details in output_details]
>> *)
Definition read_details (i : Interpreter) (s : obj) : outcome obj :=
  match get_input_details i with
  | [] => Raises (IndexError "list index out of range") s
  | input_details :: _ =>
      match shape_1 input_details with
      | Err e => Raises e s
      | Ok size =>
          let s := with_input_size s (Some size) in
          let s := with_input_index s (Some (details_index input_details)) in
          let output_details := get_output_details i in
          let sizes :=
            if tflite.tpu s
            then np.sequence (map shape_1 output_details)
            else Ok [] in
          match sizes with
          | Err e => Raises e s
          | Ok l =>
              let s := if tflite.tpu s then with_output_size s (Some l)
                       else s in
              Returns
                (with_output_index s
                   (Some (map details_index output_details)))
          end
      end
  end.

(** [load_tflite]:
<<
    if self.tpu:
        self.interpreter = tflite.Interpreter(
            model_path=tflite_path,
            experimental_delegates=[
                tflite.load_delegate("libedgetpu.so.1")
            ],
        )
    else:
        self.interpreter = tflite.Interpreter(model_path=tflite_path)
>>
    and then as above. *)
Definition load_tflite (tflite_path : string) (s : obj) : outcome obj :=
  match tflite_Interpreter tflite_path (tflite.tpu s) with
  | Err e => Raises e s
  | Ok i =>
      match allocate_tensors i with
      | Raises e i' => Raises e (tflite.with_interpreter s (Some i'))
      | Returns i' =>
          read_details i' (tflite.with_interpreter s (Some i'))
      end
  end.

End YOLOv4.
End tflite_rest.

(** ** More of the concrete instance *)

Module Sample2.

(** A data set of numbered batches: the iterator is the number of the next
    batch, and the data set holds the batches 0 to 49. *)
Definition next (it : nat) : option (nat * unit * nat) :=
  if (it <? 50)%nat then Some (it, tt, S it) else None.
Definition first_image (images : nat) : nat := images.

(** An interpreter with one input of shape (1, 416, 416, 3) at index 0 and
    two outputs, at the indices 1 and 0. *)
Definition tflite_Interpreter (path : string) (edgetpu : bool)
  : result unit :=
  if String.eqb path "yolov4-tiny.tflite" then Ok tt
  else Err (ValueError "Could not open the model file").
Definition allocate_tensors (i : unit) : outcome unit := Returns i.
Definition get_input_details (i : unit) : list tensor_details :=
  [mk_tensor_details [1; 416; 416; 3] 0].
Definition get_output_details (i : unit) : list tensor_details :=
  [mk_tensor_details [1; 1; 1; 3; 2] 1; mk_tensor_details [1; 2; 2; 3; 2] 0].

(** A converter that takes any model and converts it to "flatbuffer"; files
    as the list of what was written, latest first. *)
Definition from_keras_model (m : option unit) : result unit :=
  match m with
  | Some _ => Ok tt
  | None => Err (AttributeError "'NoneType' object has no attribute 'call'")
  end.
Definition convert (c : unit)
  (settings : converter_settings
                (option nat -> list (list nat) * generator_end * option nat))
  : result string := Ok "flatbuffer".
Definition gfile_write (files : list (string * string)) (path : string)
  (content : string) : outcome (list (string * string)) :=
  Returns ((path, content) :: files).
Definition model_fit (m : unit) (data_set : unit) (a : fit_arguments unit)
  : outcome unit := Returns m.

End Sample2.

(** * Properties of the configuration surface *)

Section Configuration.
Variable round_f32 : Q -> Q.
Variable float_of_str : string -> option Q.
Variable read_classes_names : string -> result pyval.
Variable Model : Type.
Variable Interpreter : Type.

Local Abbreviation obj := (tf.YOLOv4 Model).
Local Abbreviation lite := (tflite.YOLOv4 Interpreter).

(** Re-assigning an attribute its own value changes nothing. *)
Lemma tf_with_classes_same (s : obj) : tf.with_classes s (tf._classes s) = s.
Proof. now destruct s. Qed.

Lemma tf_with_strides_same (s : obj) : tf.with_strides s (tf._strides s) = s.
Proof. now destruct s. Qed.

Lemma tf_with_xyscales_same (s : obj) :
  tf.with_xyscales s (tf._xyscales s) = s.
Proof. now destruct s. Qed.

Lemma tflite_with_classes_same (s : lite) :
  tflite.with_classes s (tflite._classes s) = s.
Proof. now destruct s. Qed.

(** *** [input_size] *)

Lemma mod_32_divide (size : Z) : size mod 32 = 0 <-> (32 | size).
Proof. apply Z.mod_divide. discriminate. Qed.

(** C1, as the code has it: for every integer [size], the assignment to
    [input_size] returns exactly when [size] is a multiple of 32, of either
    sign or zero; it then stores [size] and touches nothing else.  Any other
    [size] raises [ValueError] and the object, the stored input size
    included, is as before. *)
Theorem input_size_accepts_multiples_of_32 (size : Z) (s : obj) :
  (returned (tf.set_input_size size s) = true <-> (32 | size))
  /\ ((32 | size) ->
      tf.set_input_size size s = Returns (tf.with_input_size s (Some size)))
  /\ (~ (32 | size) ->
      tf.set_input_size size s
      = Raises (ValueError "YOLOv4: Set input_size to multiples of 32") s).
Proof.
  unfold tf.set_input_size.
  destruct (Z.eqb_spec (size mod 32) 0) as [E | E].
  - apply mod_32_divide in E. repeat split; cbn; try tauto.
  - assert (N : ~ (32 | size)) by (intro D; apply E, mod_32_divide, D).
    repeat split; cbn; try tauto; try discriminate.
Qed.

End Configuration.

(** C1 as stated fails: 0 and -32 are no positive multiples of 32, and both
    are stored by the setter. *)
Lemma input_size_stores_zero_and_negative :
  tf.set_input_size 0 Sample.full
    = Returns (tf.with_input_size Sample.full (Some 0))
  /\ tf.set_input_size (-32) Sample.full
    = Returns (tf.with_input_size Sample.full (Some (-32)))
  /\ ~ (0 < 0) /\ ~ (0 < -32).
Proof. repeat split; lia. Qed.

Section Properties.
Variable round_f32 : Q -> Q.
Variable float_of_str : string -> option Q.
Variable read_classes_names : string -> result pyval.
Variable Model : Type.
Variable Interpreter : Type.

Local Abbreviation obj := (tf.YOLOv4 Model).
Local Abbreviation lite := (tflite.YOLOv4 Interpreter).
Local Abbreviation f32 := (fun z : Z => SFloat (round_f32 (inject_Z z))).

(** *** Defaults *)

(** C6: the default configuration.  [YOLOv4()] has three scales, strides
    [8, 16, 32], xyscales [1.2, 1.1, 1.05] and a (3, 3, 2) anchor array, that
    is three ordered (w, h) anchors for each scale; [YOLOv4(tiny=True)] has
    two scales, strides [16, 32], xyscales [1.05, 1.05] and a (2, 3, 2)
    anchor array. *)
Theorem default_configuration (tpu : bool) :
  (exists s,
      tf.init round_f32 float_of_str Model false tpu = Returns s
      /\ tf.tiny s = false
      /\ tf._strides s
         = Some (mk_ndarray dt_int [3] [SInt 8; SInt 16; SInt 32])
      /\ tf._xyscales s
         = Some (mk_ndarray dt_float64 [3]
                   [SFloat (12 # 10); SFloat (11 # 10); SFloat (105 # 100)])
      /\ tf._anchors s
         = Some (mk_ndarray dt_float32 [3; 3; 2]
                   (map f32 [12; 16; 19; 36; 40; 28;
                             36; 75; 76; 55; 72; 146;
                             142; 110; 192; 243; 459; 401])))
  /\ (exists s,
      tf.init round_f32 float_of_str Model true tpu = Returns s
      /\ tf.tiny s = true
      /\ tf._strides s = Some (mk_ndarray dt_int [2] [SInt 16; SInt 32])
      /\ tf._xyscales s
         = Some (mk_ndarray dt_float64 [2]
                   [SFloat (105 # 100); SFloat (105 # 100)])
      /\ tf._anchors s
         = Some (mk_ndarray dt_float32 [2; 3; 2]
                   (map f32 [23; 27; 37; 58; 81; 82;
                             81; 82; 135; 169; 344; 319]))).
Proof.
  split; eexists; repeat split.
Qed.

(** *** [classes] *)

(** C10: in both classes, a value that is neither a [str] nor a [dict]
    raises [TypeError] and leaves the object, its class names included, as it
    was; a [dict] is stored as it is; a [str] is handed to
    [media.read_classes_names] and what that returns is stored (and if that
    raises, the object is as it was). *)
Theorem classes_assignment (data : pyval) (s : obj) (t : lite) :
  (is_str data = false -> is_dict data = false ->
     tf.set_classes read_classes_names data s
       = Raises (TypeError "YOLOv4: Set classes path or dictionary") s
     /\ tflite.set_classes read_classes_names data t
       = Raises (TypeError "YOLOv4: Set classes path or dictionary") t)
  /\ (is_dict data = true ->
     tf.set_classes read_classes_names data s
       = Returns (tf.with_classes s data)
     /\ tflite.set_classes read_classes_names data t
       = Returns (tflite.with_classes t data))
  /\ (forall path, data = PyStr path ->
     tf.set_classes read_classes_names data s
       = match read_classes_names path with
         | Ok names => Returns (tf.with_classes s names)
         | Err e => Raises e s
         end
     /\ tflite.set_classes read_classes_names data t
       = match read_classes_names path with
         | Ok names => Returns (tflite.with_classes t names)
         | Err e => Raises e t
         end).
Proof.
  unfold tf.set_classes, tflite.set_classes, Setters.classes_setter.
  split; [| split].
  - intros Hs Hd.
    destruct data; try discriminate; cbn;
      now rewrite tf_with_classes_same, tflite_with_classes_same.
  - intros Hd. destruct data; try discriminate. now cbn.
  - intros path ->.
    destruct (read_classes_names path); cbn;
      now rewrite ?tf_with_classes_same, ?tflite_with_classes_same.
Qed.

(** *** [anchors], [strides], [xyscales] *)

Lemma sequence_length {A} (rs : list (result A)) (l : list A) :
  np.sequence rs = Ok l -> length l = length rs.
Proof.
  revert l. induction rs as [| r rs IH]; intros l H; cbn in H.
  - now inversion H.
  - destruct r as [a | e]; cbn in H; [| discriminate].
    destruct (np.sequence rs) as [l' | e]; cbn in H; [| discriminate].
    inversion H; subst. cbn. f_equal. now apply IH.
Qed.

Lemma astype_float32_inv (a f : ndarray) :
  np.astype_float32 round_f32 float_of_str a = Ok f ->
  nd_dtype f = dt_float32 /\ nd_shape f = nd_shape a
  /\ np.size f = np.size a.
Proof.
  unfold np.astype_float32, np.size. intros H.
  destruct (np.sequence _) as [data | e] eqn:E; cbn in H; [| discriminate].
  inversion H; subst; cbn. repeat split.
  apply sequence_length in E. rewrite E. now rewrite length_map.
Qed.

(** Reshaping to (2, 3, 2) or (3, 3, 2) succeeds exactly on 12 or 18
    elements. *)
Lemma reshape_anchors (tiny : bool) (a : ndarray) :
  np.reshape [if tiny then 2 else 3; 3; 2] a
  = if (if tiny then 12 else 18) =? np.size a
    then Ok (mk_ndarray (nd_dtype a) [if tiny then 2 else 3; 3; 2] (nd_data a))
    else Err (ValueError "cannot reshape array").
Proof. now destruct tiny. Qed.

Lemma anchors_reshape_returns (tiny : bool) (cur new : option ndarray) :
  Setters.anchors_reshape round_f32 float_of_str tiny cur = Returns new ->
  exists a,
    new = Some a /\ nd_dtype a = dt_float32
    /\ nd_shape a = [if tiny then 2 else 3; 3; 2]
    /\ np.size a = 3 * 2 * (if tiny then 2 else 3).
Proof.
  unfold Setters.anchors_reshape, Setters.keep_or_raise.
  destruct cur as [a |]; cbn; [| discriminate].
  destruct (np.astype_float32 _ _ a) as [f | e] eqn:F; cbn; [| discriminate].
  apply astype_float32_inv in F as (D & _ & _).
  rewrite reshape_anchors.
  destruct (Z.eqb_spec (if tiny then 12 else 18) (np.size f)) as [E | E];
    cbn; [| discriminate].
  intros H. inversion H; subst. eexists; repeat split; cbn; trivial.
  unfold np.size in *; cbn. destruct tiny; lia.
Qed.

Lemma anchors_setter_returns (tiny : bool) (v : pyval)
  (old new : option ndarray) :
  Setters.anchors_setter round_f32 float_of_str tiny v old = Returns new ->
  exists a,
    new = Some a /\ nd_dtype a = dt_float32
    /\ nd_shape a = [if tiny then 2 else 3; 3; 2]
    /\ np.size a = 3 * 2 * (if tiny then 2 else 3).
Proof.
  unfold Setters.anchors_setter. intros H.
  destruct (Setters.anchors_assign v old) as [cur | e cur]; cbn in H;
    [| discriminate].
  now apply anchors_reshape_returns in H.
Qed.

(** C4: in both classes, whenever an assignment to [anchors] returns, the
    stored anchors are a float32 array of shape (2, 3, 2) for the tiny model
    and (3, 3, 2) for the full one: three (w, h) pairs for each scale.  The
    value assigned is arbitrary, so the flat and the nested list are both
    covered. *)
Theorem anchors_shape_after_assignment (v : pyval) :
  (forall s s' : obj,
      tf.set_anchors round_f32 float_of_str v s = Returns s' ->
      exists a,
        tf._anchors s' = Some a /\ nd_dtype a = dt_float32
        /\ nd_shape a = [if tf.tiny s then 2 else 3; 3; 2]
        /\ np.size a = 3 * 2 * (if tf.tiny s then 2 else 3))
  /\ (forall t t' : lite,
      tflite.set_anchors round_f32 float_of_str v t = Returns t' ->
      exists a,
        tflite._anchors t' = Some a /\ nd_dtype a = dt_float32
        /\ nd_shape a = [if tflite.tiny t then 2 else 3; 3; 2]
        /\ np.size a = 3 * 2 * (if tflite.tiny t then 2 else 3)).
Proof.
  split.
  - intros s s'. unfold tf.set_anchors, tf.lift.
    destruct (Setters.anchors_setter _ _ _ _ _) as [new | e new] eqn:E;
      [| discriminate].
    intros H. inversion H; subst. cbn.
    now apply anchors_setter_returns in E.
  - intros t t'. unfold tflite.set_anchors, tflite.lift.
    destruct (Setters.anchors_setter _ _ _ _ _) as [new | e new] eqn:E;
      [| discriminate].
    intros H. inversion H; subst. cbn.
    now apply anchors_setter_returns in E.
Qed.

(** A list, a tuple or an array: the values the three setters act on. *)
Lemma array_setter_other (v : pyval) (old : option ndarray) :
  is_list_or_tuple v = false -> is_ndarray v = false ->
  Setters.array_setter v old = Returns old.
Proof. now destruct v. Qed.

Lemma array_setter_sequence (v : pyval) (a : ndarray) (old : option ndarray) :
  is_list_or_tuple v = true -> np.array v = Ok a ->
  Setters.array_setter v old = Returns (Some a).
Proof.
  destruct v; try discriminate; intros _ E;
    unfold Setters.array_setter; now rewrite E.
Qed.

Lemma anchors_assign_stores (v : pyval) (a : ndarray) (old : option ndarray) :
  v = PyArray a \/ (is_list_or_tuple v = true /\ np.array v = Ok a) ->
  Setters.anchors_assign v old = Returns (Some a).
Proof.
  intros [-> | [L E]]; [reflexivity |].
  destruct v; try discriminate; unfold Setters.anchors_assign; now rewrite E.
Qed.

Lemma anchors_reshape_rejects (tiny : bool) (a : ndarray) :
  np.size a <> 3 * 2 * (if tiny then 2 else 3) ->
  returned (Setters.anchors_reshape round_f32 float_of_str tiny (Some a))
  = false.
Proof.
  intros N. unfold Setters.anchors_reshape, Setters.keep_or_raise. cbn.
  destruct (np.astype_float32 _ _ a) as [f | e] eqn:F; cbn; [| reflexivity].
  apply astype_float32_inv in F as (_ & _ & S).
  rewrite reshape_anchors.
  destruct (Z.eqb_spec (if tiny then 12 else 18) (np.size f)) as [E | E];
    cbn; [| reflexivity].
  exfalso. apply N. rewrite <- S, <- E. now destruct tiny.
Qed.

(** C2, as the code has it.  The [anchors] setter rejects, with an
    exception, a list, tuple or array that does not hold 6 numbers for each
    scale.  The [strides] and [xyscales] setters store the array made of any
    list or tuple, and any array, whatever its length.  A value of another
    type is ignored by the [strides] and [xyscales] setters: the call
    returns and the object is as before. *)
Theorem array_properties_assignment (v : pyval) (s : obj) :
  (forall a,
      v = PyArray a \/ (is_list_or_tuple v = true /\ np.array v = Ok a) ->
      np.size a <> 3 * 2 * (if tf.tiny s then 2 else 3) ->
      returned (tf.set_anchors round_f32 float_of_str v s) = false)
  /\ (forall a,
      v = PyArray a \/ (is_list_or_tuple v = true /\ np.array v = Ok a) ->
      tf.set_strides v s = Returns (tf.with_strides s (Some a))
      /\ tf.set_xyscales v s = Returns (tf.with_xyscales s (Some a)))
  /\ (is_list_or_tuple v = false -> is_ndarray v = false ->
      tf.set_strides v s = Returns s /\ tf.set_xyscales v s = Returns s).
Proof.
  split; [| split].
  - intros a Hv N. unfold tf.set_anchors, Setters.anchors_setter.
    rewrite (anchors_assign_stores _ Hv). cbn.
    pose proof (@anchors_reshape_rejects (tf.tiny s) a N) as R.
    now destruct (Setters.anchors_reshape _ _ _ _).
  - intros a [-> | [L E]]; [now split |].
    unfold tf.set_strides, tf.set_xyscales.
    now rewrite !(array_setter_sequence _ _ L E).
  - intros L A. unfold tf.set_strides, tf.set_xyscales.
    rewrite !array_setter_other by assumption. cbn.
    now rewrite tf_with_strides_same, tf_with_xyscales_same.
Qed.

End Properties.

(** The two forms of the docstring, the flat and the nested list, store the
    same anchors. *)
Example anchors_flat_and_nested :
  tf.set_anchors Sample.round_f32 Sample.float_of_str
    (tf.ints [12; 16; 19; 36; 40; 28; 36; 75; 76; 55; 72; 146;
              142; 110; 192; 243; 459; 401]) Sample.full
  = Returns Sample.full
  /\ tf.set_anchors Sample.round_f32 Sample.float_of_str
       (tf.default_anchors false) Sample.full
     = Returns Sample.full.
Proof. split; reflexivity. Qed.

(** C2 as stated fails.  On [YOLOv4()]: an integer assigned to [strides],
    [None] assigned to [anchors] and a string assigned to [xyscales] are
    ignored without an error, and two strides are stored for the three-scale
    model without an error. *)
Lemma invalid_values_pass_silently :
  tf.set_strides (PyInt 5) Sample.full = Returns Sample.full
  /\ tf.set_anchors Sample.round_f32 Sample.float_of_str PyNone Sample.full
     = Returns Sample.full
  /\ tf.set_xyscales (PyStr "1.2") Sample.full = Returns Sample.full
  /\ tf.set_strides (tf.ints [8; 16]) Sample.full
     = Returns (tf.with_strides Sample.full
                  (Some (mk_ndarray dt_int [2] [SInt 8; SInt 16]))).
Proof. repeat split. Qed.

(** * Properties of training and of the model life cycle *)

Section Training.
Variable Model : Type.
Variable Optimizer : Type.
Variable model_compile : Model -> Optimizer -> YOLOv4Loss -> outcome Model.

Local Abbreviation obj := (tf.YOLOv4 Model).

Lemma floordiv_nonzero (a b : Z) : b <> 0 -> py_floordiv a b = Ok (a / b).
Proof.
  intros N. unfold py_floordiv.
  now destruct (Z.eqb_spec b 0).
Qed.

(** C3: with a subdivision count other than 0, [compile] hands
    [batch_size // subdivision] to the loss as its normalization constant
    and [load_dataset] hands the same number to the dataset as its batch
    size.  The quotient is the integer (floor) quotient; when the subdivision
    count divides the batch size, the subdivisions of one batch make up
    exactly the configured batch size. *)
Theorem batch_size_per_subdivision (s : obj) (m : Model)
  (optimizer : Optimizer) (loss_iou_type path type : string)
  (training : bool) (a st x : ndarray) (size n : Z) :
  tf.subdivision s <> 0 ->
  tf.model s = Some m ->
  tf._anchors s = Some a ->
  tf._input_size s = Some size ->
  py_len (tf._classes s) = Ok n ->
  tf._strides s = Some st ->
  tf._xyscales s = Some x ->
  let b := tf.batch_size s / tf.subdivision s in
  tf.compile model_compile optimizer loss_iou_type s
  = tf.lift (@tf.with_model Model) s
      (match model_compile m optimizer (mk_YOLOv4Loss b loss_iou_type) with
       | Returns m' => Returns (Some m')
       | Raises e m' => Raises e (Some m')
       end)
  /\ tf.load_dataset path type training s
     = Ok (mk_Dataset a b path type training size n st x)
  /\ ((tf.subdivision s | tf.batch_size s) ->
      tf.subdivision s * b = tf.batch_size s)
  /\ (0 < tf.subdivision s ->
      tf.subdivision s * b <= tf.batch_size s < tf.subdivision s * (b + 1)).
Proof.
  intros N Hm Ha Hi Hc Hs Hx b.
  repeat split.
  - unfold tf.compile, tf.step_batch_size.
    now rewrite Hm, floordiv_nonzero.
  - unfold tf.load_dataset, tf.step_batch_size, tf.anchors, tf.input_size,
      tf.classes, tf.strides, tf.xyscales.
    rewrite Ha, Hi, Hc, Hs, Hx, floordiv_nonzero by assumption.
    reflexivity.
  - intros [q Hq]. unfold b. rewrite Hq, Z.div_mul by assumption.
    apply Z.mul_comm.
  - unfold b. now apply Z.mul_div_le.
  - unfold b. rewrite Z.mul_add_distr_l, Z.mul_1_r.
    pose proof (Z.mod_pos_bound (tf.batch_size s) (tf.subdivision s) H).
    pose proof (Z.div_mod (tf.batch_size s) (tf.subdivision s) N).
    lia.
Qed.

End Training.

(** The default object with two classes and a model: 32 // 16 = 2. *)
Lemma batch_size_per_subdivision_default :
  tf.compile Sample.model_compile tt "ciou" (tf.self Sample.built)
  = tf.lift (@tf.with_model Sample.Model) (tf.self Sample.built)
      (match Sample.model_compile tt tt (mk_YOLOv4Loss (32 / 16) "ciou") with
       | Returns m' => Returns (Some m')
       | Raises e m' => Raises e (Some m')
       end)
  /\ exists a st x,
      tf.load_dataset "coco" "converted_coco" true (tf.self Sample.built)
      = Ok (mk_Dataset a (32 / 16) "coco" "converted_coco" true 608 2 st x).
Proof.
  destruct (@batch_size_per_subdivision Sample.Model Sample.Optimizer
              Sample.model_compile (tf.self Sample.built) tt tt "ciou"
              "coco" "converted_coco" true
              (mk_ndarray dt_float32 [3; 3; 2]
                 (map (fun z => SFloat (inject_Z z))
                    [12; 16; 19; 36; 40; 28; 36; 75; 76; 55; 72; 146;
                     142; 110; 192; 243; 459; 401]))
              (mk_ndarray dt_int [3] [SInt 8; SInt 16; SInt 32])
              (mk_ndarray dt_float64 [3]
                 [SFloat (12 # 10); SFloat (11 # 10); SFloat (105 # 100)])
              608 2)
    as (C & D & _); try reflexivity; try discriminate.
  split; [exact C |].
  eexists; eexists; eexists. exact D.
Defined.

Section Session.
Variable round_f32 : Q -> Q.
Variable float_of_str : string -> option Q.
Variable read_classes_names : string -> result pyval.
Variable Model : Type.
Variable KInput : Type.
Variable Optimizer : Type.
Variable layers_Input : list Z -> result KInput.
Variable yolov4_YOLOv4Tiny :
  ndarray -> Z -> ndarray -> string -> bool -> result Model.
Variable yolov4_YOLOv4 :
  ndarray -> Z -> ndarray -> string -> string -> result Model.
Variable model_call : Model -> KInput -> outcome Model.
Variable weights_load_weights :
  option Model -> string -> bool -> outcome (option Model).
Variable model_load_weights : Model -> string -> outcome Model.
Variable model_compile : Model -> Optimizer -> YOLOv4Loss -> outcome Model.

Local Abbreviation obj := (tf.YOLOv4 Model).
Local Abbreviation process := (tf.process Model).
Local Abbreviation call := (tf.call Optimizer).
Local Abbreviation make_model :=
  (tf.make_model layers_Input yolov4_YOLOv4Tiny yolov4_YOLOv4 model_call).
Local Abbreviation load_weights :=
  (tf.load_weights weights_load_weights model_load_weights).
Local Abbreviation step :=
  (tf.step round_f32 float_of_str read_classes_names layers_Input
     yolov4_YOLOv4Tiny yolov4_YOLOv4 model_call weights_load_weights
     model_load_weights model_compile).
Local Abbreviation run :=
  (tf.run round_f32 float_of_str read_classes_names layers_Input
     yolov4_YOLOv4Tiny yolov4_YOLOv4 model_call weights_load_weights
     model_load_weights model_compile).
Local Abbreviation LoadWeights := (tf.LoadWeights Optimizer).
Local Abbreviation assigns_flag :=
  (tf.assigns_flag round_f32 float_of_str read_classes_names layers_Input
     yolov4_YOLOv4Tiny yolov4_YOLOv4 model_call weights_load_weights
     model_load_weights model_compile).
Local Abbreviation is_make_model := (@tf.is_make_model Optimizer).

(** [make_model]: the flag is down and the session cleared on every exit,
    and the clearing comes before the construction. *)
Lemma make_model_resets (a0 a1 : string) (p : process) :
  tf.has_weights (after (make_model a0 a1 p)) = false
  /\ exists tail,
      tf.backend_log (after (make_model a0 a1 p))
      = tf.backend_log p ++ ClearSession :: tail
      /\ (tail = [] \/ tail = [ModelConstructed]).
Proof.
  unfold tf.make_model, tf.has_weights.
  destruct (rbind _ _) as [inputs | e]; cbn.
  2: { split; [reflexivity |]. exists []. split; [reflexivity | now left]. }
  destruct (tf.construct _ _ _ _ _) as [m | e]; cbn.
  2: { split; [reflexivity |]. exists []. split; [reflexivity | now left]. }
  destruct (model_call m inputs) as [m' | e m']; cbn;
    (split; [reflexivity |]); exists [ModelConstructed];
    rewrite <- app_assoc; split; try reflexivity; now right.
Qed.

(** [load_weights]: what the chosen loader does decides the exit; the flag
    goes up on a return and stays as it was on a raise. *)
Lemma load_weights_yolo (path : string) (s : obj) :
  load_weights path "yolo" s
  = match weights_load_weights (tf.model s) path (tf.tiny s) with
    | Returns m' => Returns (tf.with_has_weights (tf.with_model s m') true)
    | Raises e m' => Raises e (tf.with_model s m')
    end.
Proof.
  unfold tf.load_weights, tf.load_into_model. cbn.
  now destruct (weights_load_weights _ _ _).
Qed.

Lemma load_weights_tf (path : string) (s : obj) (m : Model) :
  tf.model s = Some m ->
  load_weights path "tf" s
  = match model_load_weights m path with
    | Returns m' =>
        Returns (tf.with_has_weights (tf.with_model s (Some m')) true)
    | Raises e m' => Raises e (tf.with_model s (Some m'))
    end.
Proof.
  intros Hm. unfold tf.load_weights, tf.load_into_model. cbn. rewrite Hm.
  now destruct (model_load_weights _ _).
Qed.

Lemma load_weights_flag (path type : string) (s : obj) :
  tf._has_weights (after (load_weights path type s))
  = if returned (load_weights path type s) then true else tf._has_weights s.
Proof.
  unfold tf.load_weights, tf.load_into_model.
  destruct (String.eqb type "yolo").
  - now destruct (weights_load_weights _ _ _).
  - destruct (String.eqb type "tf"); [| reflexivity].
    destruct (tf.model s); [| reflexivity].
    now destruct (model_load_weights _ _).
Qed.

Lemma after_on_self (f : obj -> outcome obj) (p : process) :
  tf.has_weights (after (tf.on_self f p))
  = tf._has_weights (after (f (tf.self p))).
Proof. unfold tf.on_self, tf.has_weights. now destruct (f _). Qed.

Lemma returned_on_self (f : obj -> outcome obj) (p : process) :
  returned (tf.on_self f p) = returned (f (tf.self p)).
Proof. unfold tf.on_self. now destruct (f _). Qed.

Lemma after_lift {A} (put : obj -> A -> obj) (s : obj) (o : outcome A) :
  after (tf.lift put s o) = put s (after o).
Proof. now destruct o. Qed.

(** Every call but [make_model] and a returning [load_weights] leaves the
    flag as it was. *)
Lemma step_keeps_flag (c : call) (p : process) :
  assigns_flag c p = false ->
  tf.has_weights (after (step c p)) = tf.has_weights p.
Proof.
  destruct c; cbn; try discriminate; intros H;
    rewrite ?after_on_self;
    unfold tf.set_anchors, tf.set_classes, tf.set_strides, tf.set_xyscales;
    rewrite ?after_lift; try reflexivity.
  - unfold tf.set_input_size. now destruct (_ =? _).
  - rewrite load_weights_flag. rewrite returned_on_self in H. now rewrite H.
  - unfold tf.compile. destruct (tf.model _); [| reflexivity].
    destruct (tf.step_batch_size _); [| reflexivity].
    now rewrite after_lift.
Qed.

Lemma run_snoc (calls : list call) (c : call) (p : process) :
  run (calls ++ [c]) p = after (step c (run calls p)).
Proof. unfold tf.run. now rewrite fold_left_app. Qed.

Lemma snoc_split {A} (l pre post : list A) (c x : A) :
  l ++ [c] = pre ++ x :: post ->
  (post = [] /\ l = pre /\ c = x)
  \/ exists post', post = post' ++ [c] /\ l = pre ++ x :: post'.
Proof.
  destruct post as [| y post'] using rev_ind; intros E.
  - left. apply app_inj_tail in E as [-> ->]. auto.
  - right. exists post'.
    change (pre ++ x :: post' ++ [y]) with (pre ++ (x :: post') ++ [y]) in E.
    rewrite app_assoc in E. apply app_inj_tail in E as [-> ->]. auto.
Qed.

Lemma make_model_last (calls : list call) :
  existsb is_make_model calls = false <->
  forall c, In c calls -> is_make_model c = false.
Proof.
  split.
  - intros H c Hc. destruct (is_make_model c) eqn:E; [| reflexivity].
    rewrite <- H. symmetry. apply existsb_exists. now exists c.
  - intros H. destruct (existsb is_make_model calls) eqn:E; [| reflexivity].
    apply existsb_exists in E as (c & Hc & E). now rewrite (H c Hc) in E.
Qed.

(** What makes the flag stand after a session: a returning [load_weights]
    with no [make_model] after it, or a flag that stood at the start and no
    [make_model] at all. *)
Lemma has_weights_history (calls : list call) (p : process) :
  tf.has_weights (run calls p) = true <->
  (exists pre path type post,
      calls = pre ++ LoadWeights path type :: post
      /\ returned (step (LoadWeights path type) (run pre p)) = true
      /\ existsb is_make_model post = false)
  \/ (tf.has_weights p = true /\ existsb is_make_model calls = false).
Proof.
  induction calls as [| c calls IH] using rev_ind.
  - cbn. split.
    + intros H. now right.
    + intros [(pre & path & type & post & E & _) | [H _]]; [| exact H].
      now destruct pre.
  - rewrite run_snoc.
    destruct (assigns_flag c (run calls p)) eqn:F.
    + (* the flag is assigned by [c] *)
      destruct c; try discriminate F.
      * (* make_model *)
        destruct (make_model_resets activation0 activation1 (run calls p))
          as [R _].
        cbn [tf.step]. rewrite R. split; [discriminate |].
        intros [(pre & path & type & post & E & _ & N) | [_ N]].
        -- apply snoc_split in E as [(_ & _ & E) | (post' & -> & _)];
             [discriminate |].
           rewrite existsb_app in N. cbn in N.
           now rewrite orb_true_r in N.
        -- rewrite existsb_app in N. cbn in N. now rewrite orb_true_r in N.
      * (* a returning load_weights *)
        cbn [tf.assigns_flag] in F. split.
        -- intros _. left. exists calls, weights_path, weights_type, [].
           auto.
        -- intros _. cbn [tf.step] in *. rewrite after_on_self.
           rewrite load_weights_flag. rewrite returned_on_self in F.
           now rewrite F.
    + (* the flag is left alone by [c] *)
      rewrite step_keeps_flag by assumption. rewrite IH.
      assert (M : is_make_model c = false) by (now destruct c).
      split.
      * intros [(pre & path & type & post & -> & R & N) | [H N]].
        -- left. exists pre, path, type, (post ++ [c]).
           rewrite <- app_assoc. repeat split; trivial.
           rewrite existsb_app, N. cbn. now rewrite M.
        -- right. split; [exact H |].
           rewrite existsb_app, N. cbn. now rewrite M.
      * intros [(pre & path & type & post & E & R & N) | [H N]].
        -- apply snoc_split in E as [(_ & -> & ->) | (post' & -> & ->)].
           ++ cbn [tf.assigns_flag] in F. congruence.
           ++ left. exists pre, path, type, post'. repeat split; trivial.
              rewrite existsb_app in N. now apply orb_false_elim in N.
        -- right. split; [exact H |].
           rewrite existsb_app in N. now apply orb_false_elim in N.
Qed.

(** C9: a fresh object has [_has_weights] down; [make_model] puts it down
    and clears the backend session, on every exit and before it constructs
    the model;
    [load_weights] puts the flag up for the "yolo" and for the "tf" format
    as soon as the loader returns; and after any session that starts from a
    fresh object the flag stands only if some [load_weights] returned and no
    [make_model] was called after it. *)
Theorem has_weights_between_load_and_make :
  (forall tiny tpu,
      tf._has_weights (after (tf.init round_f32 float_of_str Model tiny tpu))
      = false)
  /\ (forall a0 a1 p,
      tf.has_weights (after (make_model a0 a1 p)) = false
      /\ exists tail,
          tf.backend_log (after (make_model a0 a1 p))
          = tf.backend_log p ++ ClearSession :: tail
          /\ (tail = [] \/ tail = [ModelConstructed]))
  /\ (forall path s,
      load_weights path "yolo" s
      = match weights_load_weights (tf.model s) path (tf.tiny s) with
        | Returns m' =>
            Returns (tf.with_has_weights (tf.with_model s m') true)
        | Raises e m' => Raises e (tf.with_model s m')
        end)
  /\ (forall path s m,
      tf.model s = Some m ->
      load_weights path "tf" s
      = match model_load_weights m path with
        | Returns m' =>
            Returns (tf.with_has_weights (tf.with_model s (Some m')) true)
        | Raises e m' => Raises e (tf.with_model s (Some m'))
        end)
  /\ (forall calls p,
      tf.has_weights p = false ->
      (tf.has_weights (run calls p) = true <->
       exists pre path type post,
         calls = pre ++ LoadWeights path type :: post
         /\ returned (step (LoadWeights path type) (run pre p)) = true
         /\ existsb is_make_model post = false)).
Proof.
  split; [| split; [| split; [| split]]].
  - intros tiny tpu. now destruct tiny.
  - intros. apply make_model_resets.
  - intros. apply load_weights_yolo.
  - intros. now apply load_weights_tf.
  - intros calls p H0. rewrite has_weights_history. split.
    + intros [H | [H _]]; [exact H | congruence].
    + intros H. now left.
Qed.

End Session.

(** * Properties of inference *)

Section Gather.

Lemma shape_eqb_refl (s : list Z) : shape_eqb s s = true.
Proof. unfold shape_eqb. now destruct (list_eq_dec Z.eq_dec s s). Qed.

Lemma blocks_length {A} (count len : nat) (l : list A) :
  length (np.blocks count len l) = count.
Proof.
  revert l. induction count as [| c IH]; intros l; cbn; [reflexivity |].
  now rewrite IH.
Qed.

(** Cutting a concatenation into blocks: the blocks of the first list, then
    the blocks of the second. *)
Lemma blocks_app {A} (n1 n2 len : nat) (l1 l2 : list A) :
  length l1 = (n1 * len)%nat ->
  np.blocks (n1 + n2) len (l1 ++ l2)
  = np.blocks n1 len l1 ++ np.blocks n2 len l2.
Proof.
  revert l1. induction n1 as [| n1 IH]; intros l1 L; cbn in *.
  - apply length_zero_iff_nil in L. now subst.
  - rewrite firstn_app, skipn_app.
    replace (len - length l1)%nat with O by lia.
    cbn. rewrite app_nil_r. f_equal.
    apply IH. rewrite length_skipn. lia.
Qed.

Lemma scale_output_rows (k : Z) (c : ndarray) :
  0 < k -> scale_output k c ->
  0 < candidate_rows c
  /\ length (nd_data c)
     = (Z.to_nat (candidate_rows c) * Z.to_nat k)%nat.
Proof.
  intros K (_ & G & S). unfold candidate_rows, np.size in *.
  set (g := nth 1 (nd_shape c) 0) in *.
  assert (0 < g * g * 3) by nia.
  split; [assumption |].
  rewrite <- Z2Nat.inj_mul by lia. rewrite <- S. now rewrite Nat2Z.id.
Qed.

Lemma total_rows_nonneg (k : Z) (cs : list ndarray) :
  0 < k -> Forall (scale_output k) cs -> 0 <= total_rows cs.
Proof.
  intros K F. induction F as [| c cs Hc _ IH]; cbn; [lia |].
  apply (scale_output_rows K) in Hc. unfold total_rows in IH. lia.
Qed.

(** The rows of all scales, cut out of the concatenated data, are the rows
    of the first scale, then those of the second, and so on. *)
Lemma rows_of_all_scales (k : Z) (cs : list ndarray) :
  0 < k -> Forall (scale_output k) cs ->
  np.blocks (Z.to_nat (total_rows cs)) (Z.to_nat k) (flat_map nd_data cs)
  = flat_map (fun c => np.rows (table k c)) cs
  /\ length (flat_map nd_data cs)
     = (Z.to_nat (total_rows cs) * Z.to_nat k)%nat.
Proof.
  intros K F. induction F as [| c cs Hc F [IH1 IH2]]; cbn; [now split |].
  pose proof (total_rows_nonneg K F) as T.
  apply (scale_output_rows K) in Hc as [R L].
  change (fold_right Z.add 0 (map candidate_rows cs)) with (total_rows cs).
  rewrite Z2Nat.inj_add by lia. split.
  - rewrite blocks_app by exact L. now rewrite IH1.
  - rewrite length_app, L, IH2. lia.
Qed.

(** [reshape(1, n, -1)] on an array whose size is a multiple of [n]. *)
Lemma reshape_rows (n : Z) (a : ndarray) :
  0 < n -> np.size a mod n = 0 ->
  np.reshape [1; n; -1] a
  = Ok (mk_ndarray (nd_dtype a) [1; n; np.size a / n] (nd_data a)).
Proof.
  intros N M. unfold np.reshape.
  assert (E1 : existsb (fun d => d <? -1) [1; n; -1] = false).
  { cbn. now destruct (Z.ltb_spec n (-1)); [lia |]. }
  assert (E0 : (n =? -1) = false) by (apply Z.eqb_neq; lia).
  assert (E2 : np.count_auto [1; n; -1] = 1%nat).
  { unfold np.count_auto. cbn [filter]. rewrite E0. reflexivity. }
  assert (E3 : prodZ (np.known_dims [1; n; -1]) = n).
  { unfold np.known_dims. cbn [filter]. rewrite E0.
    change (1 =? -1) with false. change (-1 =? -1) with true.
    cbn [negb]. unfold prodZ. cbn [fold_right]. lia. }
  rewrite E1, E2, E3, M.
  assert (E4 : (n =? 0) = false) by (apply Z.eqb_neq; lia).
  rewrite E4. cbn [orb negb Z.eqb map]. rewrite E0.
  reflexivity.
Qed.

(** One scale through the loop: (1, grid_size * grid_size * 3, k). *)
Lemma flatten_scale_output (k : Z) (c : ndarray) :
  0 < k -> scale_output k c ->
  flatten_scale c = Ok (flattened k c).
Proof.
  intros K H. pose proof (scale_output_rows K H) as [R _].
  destruct H as (N & G & S).
  unfold flatten_scale, np.shape1.
  assert (E : candidate_rows c
              = nth 1 (nd_shape c) 0 * nth 1 (nd_shape c) 0 * 3)
    by reflexivity.
  destruct (nd_shape c) as [| d0 [| g rest]]; cbn in N; try lia.
  cbn [nth] in E. cbn [rbind]. rewrite <- E.
  rewrite reshape_rows; rewrite ?S; trivial.
  - now rewrite (Z.mul_comm (candidate_rows c) k), Z.div_mul by lia.
  - rewrite Z.mul_comm. apply Z.mod_mul. lia.
Qed.

Lemma flatten_scales (k : Z) (cs : list ndarray) :
  0 < k -> Forall (scale_output k) cs ->
  np.sequence (map flatten_scale cs) = Ok (map (flattened k) cs).
Proof.
  intros K F. induction F as [| c cs Hc _ IH]; cbn; [reflexivity |].
  now rewrite (flatten_scale_output K Hc), IH.
Qed.

Lemma flat_joinable (k r : Z) (cs : list ndarray) :
  forallb (fun b => np.joinable [1; r; k] (nd_shape b)) (map (flattened k) cs)
  = true.
Proof.
  induction cs as [| c cs IH]; cbn [map forallb]; [reflexivity |].
  rewrite IH. cbn. now rewrite shape_eqb_refl.
Qed.

Lemma flat_result_type (k : Z) (c : ndarray) (cs : list ndarray) :
  np.result_type (flattened k c) (map (flattened k) cs) = np.result_type c cs.
Proof.
  unfold np.result_type. cbn.
  induction cs as [| d cs IH]; cbn; [reflexivity | now rewrite IH].
Qed.

Lemma flat_axis1 (k : Z) (cs : list ndarray) :
  fold_right Z.add 0
    (map (fun b => np.axis1 (nd_shape b)) (map (flattened k) cs))
  = total_rows cs.
Proof.
  unfold total_rows.
  induction cs as [| c cs IH]; cbn [map fold_right]; [reflexivity |].
  now rewrite IH.
Qed.

Lemma firstn_whole {A} (n : nat) (l : list A) :
  length l = n -> firstn n l = l.
Proof. intros <-. apply firstn_all. Qed.

Lemma flat_slices (k : Z) (cs : list ndarray) :
  0 < k -> Forall (scale_output k) cs ->
  flat_map (np.slice0 0) (map (flattened k) cs) = flat_map nd_data cs.
Proof.
  intros K F. induction F as [| c cs Hc _ IH]; cbn [map flat_map];
    [reflexivity |].
  rewrite IH. f_equal.
  apply (scale_output_rows K) in Hc as [R L].
  unfold np.slice0, flattened. cbn [nd_shape nd_data tl skipn Nat.mul].
  apply firstn_whole. rewrite L. unfold prodZ. cbn [fold_right].
  rewrite Z.mul_1_r. rewrite Z2Nat.inj_mul; lia.
Qed.

(** The loop, the concatenation and the selection of image 0 together:
    one table, as many rows as all scales have candidates. *)
Lemma concatenate_flattened (k : Z) (c : ndarray) (cs : list ndarray) :
  0 < k -> Forall (scale_output k) (c :: cs) ->
  np.concatenate1 (map (flattened k) (c :: cs))
  = Ok (mk_ndarray (np.result_type c cs) [1; total_rows (c :: cs); k]
          (flat_map nd_data (c :: cs))).
Proof.
  intros K F.
  pose proof (flat_joinable k (candidate_rows c) (c :: cs)) as J.
  pose proof (flat_axis1 k (c :: cs)) as A.
  pose proof (flat_slices K F) as S.
  unfold np.concatenate1.
  cbn [map] in *.
  rewrite A, flat_result_type.
  change (nd_shape (flattened k c)) with [1; candidate_rows c; k].
  rewrite J.
  cbn [hd tl Z.to_nat Pos.to_nat Pos.iter_op Nat.add seq flat_map] in *.
  change (seq 0 (Pos.to_nat 1)) with [O]. cbn [flat_map].
  now rewrite app_nil_r, S.
Qed.

(** The loop, the concatenation and the selection of image 0 together:
    one table, as many rows as all scales have candidates. *)
Lemma gather_scales (k : Z) (c : ndarray) (cs : list ndarray) :
  0 < k -> Forall (scale_output k) (c :: cs) ->
  gather (c :: cs)
  = Ok (mk_ndarray (np.result_type c cs) [total_rows (c :: cs); k]
          (flat_map nd_data (c :: cs))).
Proof.
  intros K F. unfold gather.
  rewrite (flatten_scales K F). cbn [rbind].
  rewrite (concatenate_flattened K F). cbn [rbind].
  pose proof (rows_of_all_scales K F) as [_ L].
  pose proof (total_rows_nonneg K F) as T.
  unfold np.index0. cbn [nd_shape nd_dtype Z.ltb Z.compare].
  f_equal. f_equal.
  unfold np.slice0. cbn [nd_shape nd_data tl skipn Nat.mul].
  apply firstn_whole. rewrite L. unfold prodZ. cbn [fold_right].
  rewrite Z.mul_1_r. rewrite Z2Nat.inj_mul; lia.
Qed.

End Gather.

Section Inference.
Variable Model : Type.
Variable Interpreter : Type.
Variable Image : Type.
Variable model_predict : Model -> Image -> result (list ndarray).
Variable interpreter_set_tensor :
  Interpreter -> option Z -> Image -> outcome Interpreter.
Variable interpreter_invoke : Interpreter -> outcome Interpreter.
Variable interpreter_get_tensor : Interpreter -> Z -> result ndarray.
Variable tf_resize_image : Image -> Z -> result Image.
Variable lite_resize_image : Image -> option Z -> result Image.
Variable image_shape : Image -> list Z.
Variable to_batch : Image -> Image.
Variable tf_candidates_to_pred_bboxes : ndarray -> Z -> result ndarray.
Variable lite_candidates_to_pred_bboxes :
  ndarray -> option Z -> result ndarray.
Variable fit_pred_bboxes_to_original : ndarray -> list Z -> result ndarray.

Local Abbreviation tf_predict :=
  (tf.predict model_predict tf_resize_image image_shape to_batch
     tf_candidates_to_pred_bboxes fit_pred_bboxes_to_original).
Local Abbreviation lite_run :=
  (tflite.run_interpreter interpreter_set_tensor interpreter_invoke
     lite_resize_image to_batch).
Local Abbreviation lite_predict :=
  (tflite.predict interpreter_set_tensor interpreter_invoke
     interpreter_get_tensor lite_resize_image image_shape to_batch
     lite_candidates_to_pred_bboxes fit_pred_bboxes_to_original).

(** C5: let the network put out the scales [c :: cs], each with
    grid_size * grid_size * 3 candidates of [k] numbers.  Then [predict], in
    both classes, decodes one table [all] and remaps the decoded boxes to
    the shape of the frame; the rows of [all] are the candidate rows of the
    first scale, then those of the second, and so on, grid_size * grid_size
    * 3 rows from each scale. *)
Theorem predict_decodes_one_list (k : Z) (c : ndarray) (cs : list ndarray) :
  0 < k ->
  Forall (scale_output k) (c :: cs) ->
  let all :=
    mk_ndarray (np.result_type c cs) [total_rows (c :: cs); k]
      (flat_map nd_data (c :: cs)) in
  np.rows all = flat_map (fun c' => np.rows (table k c')) (c :: cs)
  /\ (forall c', In c' (c :: cs) ->
      length (np.rows (table k c'))
      = Z.to_nat (nth 1 (nd_shape c') 0 * nth 1 (nd_shape c') 0 * 3))
  /\ (forall frame s size image m,
      tf._input_size s = Some size ->
      tf_resize_image frame size = Ok image ->
      tf.model s = Some m ->
      model_predict m (to_batch image) = Ok (c :: cs) ->
      tf_predict frame s
      = (pred_bboxes <- tf_candidates_to_pred_bboxes all size ;;
         fit_pred_bboxes_to_original pred_bboxes (image_shape frame)))
  /\ (forall frame t t' i indices,
      lite_run frame t = Returns t' ->
      tflite.interpreter t' = Some i ->
      tflite.output_index t' = Some indices ->
      np.sequence (map (interpreter_get_tensor i) indices) = Ok (c :: cs) ->
      lite_predict frame t
      = (t', (pred_bboxes <- lite_candidates_to_pred_bboxes all
                               (tflite.input_size t') ;;
              fit_pred_bboxes_to_original pred_bboxes (image_shape frame)))).
Proof.
  intros K F all.
  pose proof (rows_of_all_scales K F) as [R _].
  pose proof (gather_scales K F) as G.
  split; [| split; [| split]].
  - unfold all, np.rows. cbn [nd_shape nd_data]. exact R.
  - intros c' _. unfold table, np.rows. cbn [nd_shape nd_data].
    apply blocks_length.
  - intros frame s size image m Hs Hr Hm Hp.
    unfold tf.predict, tf.input_size. rewrite Hs. cbn [getattr rbind].
    rewrite Hr. cbn [rbind]. rewrite Hm. cbn [getattr rbind].
    rewrite Hp. cbn [rbind]. now rewrite G.
  - intros frame t t' i indices Hr Hi Ho Hg.
    unfold tflite.predict. rewrite Hr. f_equal.
    unfold tflite.read_boxes. rewrite Ho.
    rewrite (map_ext (tflite.get_tensor interpreter_get_tensor t')
               (interpreter_get_tensor i))
      by (intros index; unfold tflite.get_tensor; now rewrite Hi).
    rewrite Hg. cbn [rbind]. now rewrite G.
Qed.

End Inference.

(** Two scales with grids 1 and 2: the 3 rows of the first scale, then the
    12 rows of the second, in both classes. *)
Lemma predict_decodes_one_list_two_scales :
  let all :=
    mk_ndarray dt_float32 [15; 2]
      (flat_map nd_data Sample.outputs) in
  np.rows all
  = np.rows (table 2 (Sample.raw_output 1 2))
    ++ np.rows (table 2 (Sample.raw_output 2 2))
  /\ tf.predict Sample.model_predict Sample.media_resize_image
       Sample.image_shape Sample.to_batch Sample.candidates_to_pred_bboxes
       Sample.fit_pred_bboxes_to_original tt (tf.self Sample.built)
     = Ok all
  /\ tflite.predict Sample.interpreter_set_tensor Sample.interpreter_invoke
       Sample.interpreter_get_tensor Sample.lite_resize_image
       Sample.image_shape Sample.to_batch
       Sample.lite_candidates_to_pred_bboxes
       Sample.fit_pred_bboxes_to_original tt Sample.loaded
     = (Sample.loaded, Ok all).
Proof.
  assert (K : 0 < 2) by reflexivity.
  assert (F : Forall (scale_output 2) Sample.outputs).
  { repeat constructor; cbn; discriminate. }
  destruct (@predict_decodes_one_list Sample.Model unit Sample.Image
              Sample.model_predict Sample.interpreter_set_tensor
              Sample.interpreter_invoke Sample.interpreter_get_tensor
              Sample.media_resize_image Sample.lite_resize_image
              Sample.image_shape Sample.to_batch
              Sample.candidates_to_pred_bboxes
              Sample.lite_candidates_to_pred_bboxes
              Sample.fit_pred_bboxes_to_original
              2 (Sample.raw_output 1 2) [Sample.raw_output 2 2] K F)
    as (R & _ & T & L).
  split; [| split].
  - cbn [flat_map] in R. rewrite app_nil_r in R. exact R.
  - exact (T tt (tf.self Sample.built) 608 tt tt
             eq_refl eq_refl eq_refl eq_refl).
  - exact (L tt Sample.loaded Sample.loaded tt [0; 1]
             eq_refl eq_refl eq_refl eq_refl).
Defined.

(** * Properties of the overlap metric *)

Module OverlapFacts.
Import Overlap.
Local Open Scope Q_scope.

Lemma common_nonneg (lo1 hi1 lo2 hi2 : Q) : 0 <= common lo1 hi1 lo2 hi2.
Proof. apply Q.le_max_l. Qed.

(** The common part is no longer than either interval. *)
Lemma common_le (lo1 hi1 lo2 hi2 : Q) :
  lo1 <= hi1 -> lo2 <= hi2 ->
  common lo1 hi1 lo2 hi2 <= hi1 - lo1
  /\ common lo1 hi1 lo2 hi2 <= hi2 - lo2.
Proof.
  intros H1 H2. unfold common.
  destruct (Q.max_spec 0 (Qmin hi1 hi2 - Qmax lo1 lo2)) as [[? ?] | [? ?]];
    destruct (Q.min_spec hi1 hi2) as [[? ?] | [? ?]];
    destruct (Q.max_spec lo1 lo2) as [[? ?] | [? ?]];
    split; lra.
Qed.

Lemma common_sym (lo1 hi1 lo2 hi2 : Q) :
  common lo1 hi1 lo2 hi2 == common lo2 hi2 lo1 hi1.
Proof.
  unfold common.
  now rewrite (Q.min_comm hi1 hi2), (Q.max_comm lo1 lo2).
Qed.

Lemma common_self (lo hi : Q) : lo <= hi -> common lo hi lo hi == hi - lo.
Proof.
  intros H. unfold common.
  rewrite Q.min_id, Q.max_id.
  destruct (Q.max_spec 0 (hi - lo)) as [[? ?] | [? ?]]; [assumption |].
  set (m := Qmax 0 (hi - lo)) in *. lra.
Qed.

Lemma half (x : Q) : x / 2 == x * (1 # 2).
Proof. reflexivity. Qed.

Lemma edges_x (a : box) : well_formed a -> x_min a <= x_max a.
Proof. intros [W _]. unfold x_min, x_max. rewrite half. lra. Qed.

Lemma edges_y (a : box) : well_formed a -> y_min a <= y_max a.
Proof. intros [_ H]. unfold y_min, y_max. rewrite half. lra. Qed.

Lemma extent_x (a : box) : x_max a - x_min a == width a.
Proof. unfold x_min, x_max. field. Qed.

Lemma extent_y (a : box) : y_max a - y_min a == height a.
Proof. unfold y_min, y_max. field. Qed.

Lemma intersection_sym (a b : box) : intersection a b == intersection b a.
Proof.
  unfold intersection.
  now rewrite (common_sym (x_min a)), (common_sym (y_min a)).
Qed.

Lemma intersection_nonneg (a b : box) : 0 <= intersection a b.
Proof.
  unfold intersection. apply Qmult_le_0_compat; apply common_nonneg.
Qed.

Lemma intersection_bounds (a b : box) :
  well_formed a -> well_formed b ->
  intersection a b <= area a /\ intersection a b <= area b.
Proof.
  intros Ha Hb. unfold intersection, area.
  pose proof (common_le (edges_x Ha) (edges_x Hb)) as [X1 X2].
  pose proof (common_le (edges_y Ha) (edges_y Hb)) as [Y1 Y2].
  rewrite !extent_x in *. rewrite !extent_y in *.
  pose proof (common_nonneg (x_min a) (x_max a) (x_min b) (x_max b)) as X0.
  pose proof (common_nonneg (y_min a) (y_max a) (y_min b) (y_max b)) as Y0.
  destruct Ha, Hb. split; nra.
Qed.

Lemma intersection_self (a : box) :
  well_formed a -> intersection a a == area a.
Proof.
  intros Ha. unfold intersection, area.
  rewrite (common_self (edges_x Ha)), (common_self (edges_y Ha)).
  now rewrite extent_x, extent_y.
Qed.

Lemma intersection_degenerate (a b : box) :
  well_formed a -> well_formed b -> degenerate a -> intersection a b == 0.
Proof.
  intros Ha Hb D.
  pose proof (intersection_bounds Ha Hb) as [I _].
  pose proof (intersection_nonneg a b) as N.
  assert (Z : area a == 0).
  { unfold area. destruct D as [-> | ->]; ring. }
  lra.
Qed.

Lemma union_sym (a b : box) : union a b == union b a.
Proof. unfold union. rewrite (intersection_sym a b). ring. Qed.

Lemma floor_positive (epsilon u : Q) : 0 < epsilon -> 0 < Qmax u epsilon.
Proof.
  intros E. pose proof (Q.le_max_r u epsilon). lra.
Qed.

Lemma intersection_le_union (a b : box) :
  well_formed a -> well_formed b -> intersection a b <= union a b.
Proof.
  intros Ha Hb. pose proof (intersection_bounds Ha Hb) as [I1 I2].
  unfold union. lra.
Qed.

(** The parts of C7, one lemma each. *)
Lemma IoU_range (epsilon : Q) (a b : box) :
  0 < epsilon -> well_formed a -> well_formed b ->
  0 <= IoU epsilon a b <= 1.
Proof.
  intros E Ha Hb.
  pose proof (floor_positive (union a b) E) as D.
  pose proof (intersection_le_union Ha Hb) as U.
  pose proof (intersection_nonneg a b) as N.
  pose proof (Q.le_max_l (union a b) epsilon) as M.
  unfold IoU. split.
  - apply Qle_shift_div_l; [exact D | lra].
  - apply Qle_shift_div_r; [exact D | lra].
Qed.

Lemma IoU_sym (epsilon : Q) (a b : box) :
  IoU epsilon a b == IoU epsilon b a.
Proof.
  unfold IoU. now rewrite (intersection_sym a b), (union_sym a b).
Qed.

Lemma IoU_degenerate (epsilon : Q) (a b : box) :
  well_formed a -> well_formed b -> degenerate a -> IoU epsilon a b == 0.
Proof.
  intros Ha Hb Dg. unfold IoU.
  rewrite (intersection_degenerate Ha Hb Dg). unfold Qdiv. ring.
Qed.

Lemma union_self (a : box) : well_formed a -> union a a == area a.
Proof.
  intros Ha. unfold union. rewrite (intersection_self Ha). ring.
Qed.

Lemma IoU_self_large (epsilon : Q) (a : box) :
  0 < epsilon -> well_formed a -> epsilon <= area a ->
  IoU epsilon a a == 1.
Proof.
  intros E Ha L. unfold IoU.
  rewrite (intersection_self Ha), (union_self Ha), Q.max_l by exact L.
  unfold Qdiv. apply Qmult_inv_r. lra.
Qed.

Lemma IoU_self_small (epsilon : Q) (a : box) :
  well_formed a -> area a <= epsilon ->
  IoU epsilon a a == area a / epsilon.
Proof.
  intros Ha L. unfold IoU.
  now rewrite (intersection_self Ha), (union_self Ha), Q.max_r by exact L.
Qed.

(** C7, as the model has it.  For a positive epsilon and boxes of
    non-negative width and height: IoU lies in [0, 1] and is symmetric; its
    denominator is positive, so nothing is divided by zero; a box with zero
    width or height has IoU 0 with every box; and IoU(A, A) is 1 when the
    area of A is at least epsilon, and area / epsilon when it is smaller. *)
Theorem IoU_properties (epsilon : Q) (a b : box) :
  0 < epsilon -> well_formed a -> well_formed b ->
  0 <= IoU epsilon a b <= 1
  /\ IoU epsilon a b == IoU epsilon b a
  /\ 0 < Qmax (union a b) epsilon
  /\ (degenerate a -> IoU epsilon a b == 0)
  /\ (epsilon <= area a -> IoU epsilon a a == 1)
  /\ (area a <= epsilon -> IoU epsilon a a == area a / epsilon).
Proof.
  intros E Ha Hb.
  split; [now apply IoU_range |].
  split; [apply IoU_sym |].
  split; [now apply floor_positive |].
  split; [now apply IoU_degenerate |].
  split; [now apply IoU_self_large | now apply IoU_self_small].
Qed.

(** Whatever the epsilon, some box of positive width and height has
    IoU(A, A) = 1/2. *)
Lemma IoU_self_half (epsilon : Q) :
  0 < epsilon ->
  let a := mk_box 0 0 1 (epsilon / 2) in
  non_degenerate a /\ IoU epsilon a a == 1 # 2.
Proof.
  intros E a.
  assert (W : well_formed a) by (unfold well_formed, a; cbn; rewrite half; lra).
  assert (A : area a == epsilon * (1 # 2)) by (unfold area, a; cbn; field).
  split.
  - unfold non_degenerate, a. cbn. rewrite half. lra.
  - rewrite (IoU_self_small W) by lra. rewrite A. field. lra.
Qed.

End OverlapFacts.

(** Overlapping 2 x 2 boxes, a quarter of each shared: IoU 1/7 both ways. *)
Lemma IoU_properties_two_boxes :
  let a := Overlap.mk_box 1 1 2 2 in
  let b := Overlap.mk_box 2 2 2 2 in
  (0 <= Overlap.IoU (1 # 1000000) a b <= 1)%Q
  /\ (Overlap.IoU (1 # 1000000) a b == Overlap.IoU (1 # 1000000) b a)%Q
  /\ (Overlap.IoU (1 # 1000000) a b == 1 # 7)%Q
  /\ (Overlap.IoU (1 # 1000000) a a == 1)%Q.
Proof.
  intros a b.
  assert (E : (0 < 1 # 1000000)%Q) by reflexivity.
  assert (Ha : Overlap.well_formed a) by (split; discriminate).
  assert (Hb : Overlap.well_formed b) by (split; discriminate).
  destruct (OverlapFacts.IoU_properties E Ha Hb) as (R & S & _ & _ & I & _).
  split; [exact R |]. split; [exact S |]. split; [reflexivity |].
  apply I. discriminate.
Defined.

(** C7 as stated fails on the model: a box of width and height 1/10000 is
    not degenerate, and with epsilon = 1/1000000 its IoU with itself is
    1/100. *)
Lemma IoU_self_of_small_box :
  let a := Overlap.mk_box 0 0 (1 # 10000) (1 # 10000) in
  Overlap.non_degenerate a
  /\ (Overlap.IoU (1 # 1000000) a a == 1 # 100)%Q
  /\ ~ (Overlap.IoU (1 # 1000000) a a == 1)%Q.
Proof.
  intros a. repeat split; discriminate.
Qed.

(** * Properties of the weight-file importer *)

Module WeightsFacts.
Import Weights.
Local Open Scope nat_scope.

Lemma read_floats_ok (n : nat) (bs : list Byte.byte) :
  4 * n <= length bs ->
  exists fs, read_floats n bs = Ok (fs, skipn (4 * n) bs) /\ length fs = n.
Proof.
  revert bs. induction n as [| n IH]; intros bs L.
  - exists []. now split.
  - destruct bs as [| b0 [| b1 [| b2 [| b3 rest]]]]; cbn in L; try lia.
    destruct (IH rest) as (fs & E & F); [lia |].
    exists ((b0, b1, b2, b3) :: fs). cbn [read_floats]. rewrite E.
    replace (4 * S n) with (4 + 4 * n) by lia.
    split; [reflexivity | cbn; now rewrite F].
Qed.

Lemma read_floats_short (n : nat) (bs : list Byte.byte) :
  length bs < 4 * n -> read_floats n bs = Err short.
Proof.
  revert bs. induction n as [| n IH]; intros bs L; [lia |].
  destruct bs as [| b0 [| b1 [| b2 [| b3 rest]]]]; try reflexivity.
  cbn [read_floats]. rewrite IH; [reflexivity |]. cbn in L. lia.
Qed.

(** One read of [n] floats inside a longer sequence of reads: it succeeds
    and leaves the goal about the rest, or the file is already too short. *)
Ltac read_next n bs :=
  let fs := fresh "fs" in
  let E := fresh "E" in
  let L := fresh "L" in
  destruct (Nat.le_gt_cases (4 * n) (length bs)) as [L | L];
  [ destruct (read_floats_ok n bs L) as (fs & E & _); rewrite E;
    rewrite ?skipn_skipn
  | rewrite (read_floats_short n bs L) ].

Lemma read_layer_ok (l : conv_layer) (bs : list Byte.byte) :
  4 * layer_floats l <= length bs ->
  exists p, read_layer l bs = Ok (p, skipn (4 * layer_floats l) bs).
Proof.
  unfold read_layer, layer_floats. intros T.
  destruct (batch_normalization l).
  - read_next (output_channels l) bs; [| lia].
    read_next (output_channels l) (skipn (4 * output_channels l) bs);
      [| rewrite length_skipn in *; lia].
    read_next (output_channels l)
      (skipn (4 * output_channels l + 4 * output_channels l) bs);
      [| rewrite length_skipn in *; lia].
    read_next (output_channels l)
      (skipn (4 * output_channels l + (4 * output_channels l
                                       + 4 * output_channels l)) bs);
      [| rewrite length_skipn in *; lia].
    read_next (kernel_floats l)
      (skipn (4 * output_channels l
              + (4 * output_channels l
                 + (4 * output_channels l + 4 * output_channels l))) bs);
      [| rewrite length_skipn in *; lia].
    eexists. f_equal. f_equal. f_equal. lia.
  - read_next (output_channels l) bs; [| lia].
    read_next (kernel_floats l) (skipn (4 * output_channels l) bs);
      [| rewrite length_skipn in *; lia].
    eexists. f_equal. f_equal. f_equal. lia.
Qed.

Lemma read_layer_short (l : conv_layer) (bs : list Byte.byte) :
  length bs < 4 * layer_floats l -> read_layer l bs = Err short.
Proof.
  unfold read_layer, layer_floats. intros T.
  destruct (batch_normalization l).
  - read_next (output_channels l) bs; [| reflexivity].
    read_next (output_channels l) (skipn (4 * output_channels l) bs);
      [| reflexivity].
    read_next (output_channels l)
      (skipn (4 * output_channels l + 4 * output_channels l) bs);
      [| reflexivity].
    read_next (output_channels l)
      (skipn (4 * output_channels l + (4 * output_channels l
                                       + 4 * output_channels l)) bs);
      [| reflexivity].
    read_next (kernel_floats l)
      (skipn (4 * output_channels l
              + (4 * output_channels l
                 + (4 * output_channels l + 4 * output_channels l))) bs);
      [| reflexivity].
    rewrite length_skipn in *. lia.
  - read_next (output_channels l) bs; [| reflexivity].
    read_next (kernel_floats l) (skipn (4 * output_channels l) bs);
      [| reflexivity].
    rewrite length_skipn in *. lia.
Qed.

Lemma read_layers_ok (topology : list conv_layer) (bs : list Byte.byte) :
  4 * total_floats topology <= length bs ->
  exists blocks,
    read_layers topology bs
    = Ok (blocks, skipn (4 * total_floats topology) bs)
    /\ length blocks = length topology.
Proof.
  revert bs. induction topology as [| l ls IH]; intros bs T;
    cbn [read_layers].
  - exists []. now split.
  - change (total_floats (l :: ls))
      with (layer_floats l + total_floats ls) in *.
    destruct (read_layer_ok l bs) as [p E]; [lia |]. rewrite E.
    destruct (IH (skipn (4 * layer_floats l) bs)) as (ps & E' & N).
    { rewrite length_skipn. lia. }
    rewrite E', skipn_skipn. exists (p :: ps).
    split; [| cbn; now rewrite N].
    f_equal. f_equal. f_equal. lia.
Qed.

Lemma read_layers_short (topology : list conv_layer) (bs : list Byte.byte) :
  length bs < 4 * total_floats topology ->
  read_layers topology bs = Err short.
Proof.
  revert bs. induction topology as [| l ls IH]; intros bs T;
    cbn [read_layers]; [cbn in T; lia |].
  change (total_floats (l :: ls))
    with (layer_floats l + total_floats ls) in *.
  destruct (Nat.le_gt_cases (4 * layer_floats l) (length bs)) as [L | L].
  - destruct (read_layer_ok l bs L) as [p E]. rewrite E.
    rewrite IH; [reflexivity |]. rewrite length_skipn. lia.
  - now rewrite read_layer_short.
Qed.

Lemma read_header_ok (bs : list Byte.byte) :
  header_bytes <= length bs ->
  exists h, read_header bs = Ok (h, skipn header_bytes bs).
Proof.
  intros L. unfold read_header.
  destruct (Nat.ltb_spec (length bs) header_bytes); [lia |].
  now eexists.
Qed.

Lemma read_header_short (bs : list Byte.byte) :
  length bs < header_bytes -> read_header bs = Err short.
Proof.
  intros L. unfold read_header.
  destruct (Nat.ltb_spec (length bs) header_bytes); [reflexivity | lia].
Qed.

(** The import by the length of the file: exactly the header and the
    expected floats, or an error. *)
Lemma import_short (topology : list conv_layer) (file : list Byte.byte) :
  length file < header_bytes + 4 * total_floats topology ->
  import topology file = Err short.
Proof.
  intros L. unfold import.
  destruct (Nat.le_gt_cases header_bytes (length file)) as [H | H].
  - destruct (read_header_ok file H) as [h E]. rewrite E.
    rewrite read_layers_short; [reflexivity |]. rewrite length_skipn. lia.
  - now rewrite read_header_short.
Qed.

Lemma import_overlong (topology : list conv_layer) (file : list Byte.byte) :
  header_bytes + 4 * total_floats topology < length file ->
  import topology file = Err overlong.
Proof.
  intros L. unfold import.
  destruct (read_header_ok file) as [h E]; [lia |]. rewrite E.
  destruct (read_layers_ok topology (skipn header_bytes file))
    as (blocks & E' & _).
  { rewrite length_skipn. lia. }
  rewrite E', skipn_skipn.
  destruct (skipn (4 * total_floats topology + header_bytes) file)
    as [| b rest] eqn:S; [| reflexivity].
  apply (f_equal (@length _)) in S. rewrite length_skipn in S. cbn in S. lia.
Qed.

Lemma import_exact (topology : list conv_layer) (file : list Byte.byte) :
  length file = header_bytes + 4 * total_floats topology ->
  exists blocks,
    import topology file = Ok blocks /\ length blocks = length topology.
Proof.
  intros L. unfold import.
  destruct (read_header_ok file) as [h E]; [lia |]. rewrite E.
  destruct (read_layers_ok topology (skipn header_bytes file))
    as (blocks & E' & N).
  { rewrite length_skipn. lia. }
  rewrite E', skipn_skipn. exists blocks.
  rewrite skipn_all2 by lia. now split.
Qed.

(** C8, on the importer of the spec.  For every topology and file: a file
    with fewer bytes than the header and the expected floats take, and a
    file with more, fail with a [FormatError]; a failure leaves installed
    what was installed before; a file of exactly the expected length is
    imported, and fails once its last 4 bytes are removed; and two imports
    of one file, whatever the model held before, install equal parameter
    blocks. *)
Theorem import_checks_length (topology : list conv_layer)
  (file : list Byte.byte) :
  (length file < header_bytes + 4 * total_floats topology ->
   import topology file = Err short)
  /\ (header_bytes + 4 * total_floats topology < length file ->
      import topology file = Err overlong)
  /\ (length file = header_bytes + 4 * total_floats topology ->
      exists blocks,
        import topology file = Ok blocks
        /\ length blocks = length topology
        /\ import topology (firstn (length file - 4) file) = Err short)
  /\ (forall installed e installed',
      load_weights topology file installed = Raises e installed' ->
      installed' = installed /\ is_format_error e = true)
  /\ (forall installed1 installed2 blocks1 blocks2,
      load_weights topology file installed1 = Returns blocks1 ->
      load_weights topology file installed2 = Returns blocks2 ->
      blocks1 = blocks2).
Proof.
  split; [apply import_short |].
  split; [apply import_overlong |].
  split; [| split].
  - intros L. destruct (import_exact topology file L) as (blocks & E & N).
    exists blocks. repeat split; trivial.
    apply import_short. rewrite length_firstn.
    unfold header_bytes in *. lia.
  - intros installed e installed'. unfold load_weights.
    destruct (Nat.lt_trichotomy (length file)
                (header_bytes + 4 * total_floats topology)) as [L | [L | L]].
    + rewrite (import_short topology file L). intros H.
      now inversion H.
    + destruct (import_exact topology file L) as (blocks & E & _).
      rewrite E. discriminate.
    + rewrite (import_overlong topology file L). intros H.
      now inversion H.
  - intros i1 i2 b1 b2. unfold load_weights.
    destruct (import topology file); [| discriminate].
    intros H1 H2. inversion H1. inversion H2. congruence.
Qed.

End WeightsFacts.

(** * Examples *)

(** One layer without batch normalization, 1 x 1 x 1 x 1: one bias and one
    kernel weight after the 20 header bytes. *)
Example import_by_length :
  let topology := [Weights.mk_conv_layer 1 1 1 1 false] in
  (exists blocks,
      Weights.import topology (repeat Byte.x00 28) = Ok blocks)
  /\ Weights.import topology (repeat Byte.x00 24) = Err Weights.short
  /\ Weights.import topology (repeat Byte.x00 32) = Err Weights.overlong.
Proof. cbn. split; [eexists |]; split; reflexivity. Qed.

(** A session: the flag is up after the weights are loaded, down again
    after the model is rebuilt, and stays down when the file is missing. *)
Example has_weights_session :
  let MakeModel := tf.MakeModel Sample.Optimizer "mish" "leaky" in
  let LoadWeights := tf.LoadWeights Sample.Optimizer in
  tf.has_weights Sample.built = false
  /\ tf.has_weights
       (Sample.run [LoadWeights "yolov4.weights" "yolo"] Sample.built)
     = true
  /\ tf.has_weights
       (Sample.run [LoadWeights "yolov4.weights" "yolo"; MakeModel]
          Sample.built)
     = false
  /\ tf.has_weights
       (Sample.run [LoadWeights "missing.weights" "yolo"] Sample.built)
     = false
  /\ tf.backend_log Sample.built = [ClearSession; ModelConstructed].
Proof. repeat split. Qed.

(** * Further properties of the configuration surface *)

Section MoreConfiguration.
Variable round_f32 : Q -> Q.
Variable float_of_str : string -> option Q.
Variable Model : Type.
Variable Interpreter : Type.

Local Abbreviation obj := (tf.YOLOv4 Model).
Local Abbreviation lite := (tflite.YOLOv4 Interpreter).
Local Abbreviation to_float32 := (np.to_float32 round_f32 float_of_str).
Local Abbreviation scales tiny := (if tiny : bool then 2 else 3).

Lemma with_anchors_stored (s : obj) (a : option ndarray) :
  tf._anchors s = a -> tf.with_anchors s a = s.
Proof. intros <-. now destruct s. Qed.

Lemma lite_with_anchors_stored (s : lite) (a : option ndarray) :
  tflite._anchors s = a -> tflite.with_anchors s a = s.
Proof. intros <-. now destruct s. Qed.

(** The conversion step of the [anchors] setter, by what it is given. *)
Lemma anchors_reshape_exact (tiny : bool) (a : ndarray) :
  Setters.anchors_reshape round_f32 float_of_str tiny (Some a)
  = match np.sequence (map to_float32 (nd_data a)) with
    | Err e => Raises e (Some a)
    | Ok data =>
        if (if tiny then 12 else 18) =? Z.of_nat (length data)
        then Returns (Some (mk_ndarray dt_float32 [scales tiny; 3; 2] data))
        else Raises (ValueError "cannot reshape array") (Some a)
    end.
Proof.
  unfold Setters.anchors_reshape, Setters.keep_or_raise, np.astype_float32.
  cbn [getattr rbind].
  destruct (np.sequence _) as [data | e]; cbn [rbind]; [| reflexivity].
  rewrite reshape_anchors. unfold np.size. cbn [nd_data nd_dtype].
  now destruct (_ =? _).
Qed.

Lemma anchors_setter_of_array (tiny : bool) (v : pyval) (a : ndarray)
  (old : option ndarray) :
  v = PyArray a \/ (is_list_or_tuple v = true /\ np.array v = Ok a) ->
  Setters.anchors_setter round_f32 float_of_str tiny v old
  = Setters.anchors_reshape round_f32 float_of_str tiny (Some a).
Proof.
  intros Hv. unfold Setters.anchors_setter.
  now rewrite (anchors_assign_stores old Hv).
Qed.

(** A rejected assignment to [anchors] is not undone: the array made of the
    value, in the shape it came in, is what the object holds afterwards, in
    both classes. *)
Theorem anchors_rejected_value_is_stored (v : pyval) (a : ndarray)
  (s : obj) (t : lite) :
  v = PyArray a \/ (is_list_or_tuple v = true /\ np.array v = Ok a) ->
  np.size a <> 3 * 2 * scales (tf.tiny s) ->
  np.size a <> 3 * 2 * scales (tflite.tiny t) ->
  (exists e,
      tf.set_anchors round_f32 float_of_str v s
      = Raises e (tf.with_anchors s (Some a)))
  /\ (exists e,
      tflite.set_anchors round_f32 float_of_str v t
      = Raises e (tflite.with_anchors t (Some a))).
Proof.
  intros Hv Ns Nt. unfold tf.set_anchors, tflite.set_anchors.
  rewrite !(anchors_setter_of_array _ _ Hv), !anchors_reshape_exact.
  unfold np.size in *.
  destruct (np.sequence _) as [data | e] eqn:E.
  - apply sequence_length in E. rewrite length_map in E. rewrite E.
    split.
    + destruct (Z.eqb_spec (if tf.tiny s then 12 else 18)
                  (Z.of_nat (length (nd_data a)))) as [H | H].
      * exfalso. apply Ns. rewrite <- H. now destruct (tf.tiny s).
      * now eexists.
    + destruct (Z.eqb_spec (if tflite.tiny t then 12 else 18)
                  (Z.of_nat (length (nd_data a)))) as [H | H].
      * exfalso. apply Nt. rewrite <- H. now destruct (tflite.tiny t).
      * now eexists.
  - split; now eexists.
Qed.

(** The stored anchors depend on the numbers of the value alone, not on how
    they are nested: two values with the same numbers in the same order
    store the same anchors. *)
Theorem anchors_nesting_is_irrelevant (v1 v2 : pyval) (a1 a2 : ndarray)
  (s s' : obj) :
  v1 = PyArray a1 \/ (is_list_or_tuple v1 = true /\ np.array v1 = Ok a1) ->
  v2 = PyArray a2 \/ (is_list_or_tuple v2 = true /\ np.array v2 = Ok a2) ->
  nd_data a1 = nd_data a2 ->
  tf.set_anchors round_f32 float_of_str v1 s = Returns s' ->
  tf.set_anchors round_f32 float_of_str v2 s = Returns s'.
Proof.
  intros H1 H2 D. unfold tf.set_anchors.
  rewrite (anchors_setter_of_array _ _ H1), (anchors_setter_of_array _ _ H2).
  rewrite !anchors_reshape_exact, D.
  destruct (np.sequence _) as [data | e]; [| discriminate].
  now destruct (_ =? _).
Qed.

Lemma to_float32_again (x y : scalar) :
  (forall q, round_f32 (round_f32 q) = round_f32 q) ->
  to_float32 x = Ok y -> to_float32 y = Ok y.
Proof.
  intros I. destruct x as [z | q | str |]; cbn.
  - intros H. inversion H. cbn. now rewrite I.
  - intros H. inversion H. cbn. now rewrite I.
  - destruct (float_of_str str); intros H; inversion H. cbn. now rewrite I.
  - discriminate.
Qed.

Lemma sequence_again (l l' : list scalar) :
  (forall q, round_f32 (round_f32 q) = round_f32 q) ->
  np.sequence (map to_float32 l) = Ok l' ->
  np.sequence (map to_float32 l') = Ok l'.
Proof.
  intros I. revert l'. induction l as [| x l IH]; intros l' H; cbn in H.
  - now inversion H.
  - destruct (to_float32 x) as [y |] eqn:X; cbn in H; [| discriminate].
    destruct (np.sequence (map to_float32 l)) as [m |]; cbn in H;
      [| discriminate].
    inversion H; subst. cbn [map np.sequence].
    now rewrite (to_float32_again _ I X), (IH m eq_refl).
Qed.

(** Getter and setter round trip: where rounding to binary32 is idempotent,
    assigning to [anchors] the anchors an assignment has stored changes
    nothing. *)
Theorem anchors_reassignment_is_idempotent (v : pyval) (a : ndarray)
  (s s' : obj) :
  (forall q, round_f32 (round_f32 q) = round_f32 q) ->
  tf.set_anchors round_f32 float_of_str v s = Returns s' ->
  tf._anchors s' = Some a ->
  tf.set_anchors round_f32 float_of_str (PyArray a) s' = Returns s'.
Proof.
  intros I H Ha.
  assert (T : tf.tiny s' = tf.tiny s).
  { unfold tf.set_anchors in H.
    destruct (Setters.anchors_setter _ _ _ _ _); inversion H. reflexivity. }
  assert (R : exists a0,
             Setters.anchors_reshape round_f32 float_of_str (tf.tiny s)
               (Some a0) = Returns (Some a)).
  { unfold tf.set_anchors, Setters.anchors_setter in H.
    destruct (Setters.anchors_assign v (tf._anchors s)) as [cur | e cur];
      cbn [obind] in H.
    - destruct cur as [a0 |].
      + exists a0.
        destruct (Setters.anchors_reshape _ _ _ (Some a0)) as [new | e new];
          inversion H; subst. cbn in Ha. now rewrite Ha.
      + discriminate H.
    - discriminate H. }
  destruct R as (a0 & R). rewrite anchors_reshape_exact in R.
  destruct (np.sequence (map to_float32 (nd_data a0))) as [data | e] eqn:E;
    [| discriminate].
  destruct (Z.eqb_spec (if tf.tiny s then 12 else 18)
              (Z.of_nat (length data))) as [L | L]; [| discriminate].
  inversion R; subst a.
  unfold tf.set_anchors.
  rewrite (anchors_setter_of_array _ _ (or_introl eq_refl)).
  rewrite anchors_reshape_exact, T. cbn [nd_data].
  rewrite (sequence_again _ I E), L, Z.eqb_refl. cbn [tf.lift].
  f_equal. now apply with_anchors_stored.
Qed.

(** An input size the setter accepts is a whole number of cells at every
    stride of the default configuration, full or tiny: the stride divides
    it, and grid size times stride gives it back. *)
Theorem accepted_input_size_fits_default_strides (tiny tpu : bool)
  (size : Z) (s s' : obj) (strides : ndarray) (stride : Z) :
  tf.init round_f32 float_of_str Model tiny tpu = Returns s ->
  tf.set_input_size size s = Returns s' ->
  tf._strides s' = Some strides ->
  In (SInt stride) (nd_data strides) ->
  (stride | size) /\ stride * (size / stride) = size.
Proof.
  intros Hi Hs Hst Hin.
  assert (D : (32 | size)).
  { unfold tf.set_input_size in Hs.
    destruct (Z.eqb_spec (size mod 32) 0) as [E | E]; [| discriminate].
    now apply mod_32_divide. }
  assert (S : tf._strides s' = tf._strides s).
  { unfold tf.set_input_size in Hs.
    destruct (_ =? _); inversion Hs. reflexivity. }
  rewrite S in Hst.
  assert (M : stride = 8 \/ stride = 16 \/ stride = 32).
  { destruct tiny; cbn in Hi; inversion Hi; subst s; cbn in Hst;
      inversion Hst; subst strides; cbn in Hin;
      repeat (destruct Hin as [Hin | Hin]; [inversion Hin; auto |]);
      contradiction. }
  assert (V : (stride | size)).
  { destruct D as [k ->].
    destruct M as [-> | [-> | ->]];
      [exists (k * 4) | exists (k * 2) | exists k]; lia. }
  split; [exact V |].
  destruct V as [k ->].
  assert (stride <> 0) by (destruct M as [-> | [-> | ->]]; discriminate).
  rewrite Z.div_mul by assumption. apply Z.mul_comm.
Qed.


End MoreConfiguration.

(** * Further properties of the model life cycle and of training *)

Section MoreSession.
Variable round_f32 : Q -> Q.
Variable float_of_str : string -> option Q.
Variable read_classes_names : string -> result pyval.
Variable Model : Type.
Variable KInput : Type.
Variable Optimizer : Type.
Variable Image : Type.
Variable DataSet : Type.
Variable Callbacks : Type.
Variable layers_Input : list Z -> result KInput.
Variable yolov4_YOLOv4Tiny :
  ndarray -> Z -> ndarray -> string -> bool -> result Model.
Variable yolov4_YOLOv4 :
  ndarray -> Z -> ndarray -> string -> string -> result Model.
Variable model_call : Model -> KInput -> outcome Model.
Variable weights_load_weights :
  option Model -> string -> bool -> outcome (option Model).
Variable model_load_weights : Model -> string -> outcome Model.
Variable model_compile : Model -> Optimizer -> YOLOv4Loss -> outcome Model.
Variable model_fit :
  Model -> DataSet -> fit_arguments Callbacks -> outcome Model.
Variable model_predict : Model -> Image -> result (list ndarray).
Variable media_resize_image : Image -> Z -> result Image.
Variable image_shape : Image -> list Z.
Variable to_batch : Image -> Image.
Variable candidates_to_pred_bboxes : ndarray -> Z -> result ndarray.
Variable fit_pred_bboxes_to_original : ndarray -> list Z -> result ndarray.

Local Abbreviation obj := (tf.YOLOv4 Model).
Local Abbreviation process := (tf.process Model).
Local Abbreviation call := (tf.call Optimizer).
Local Abbreviation make_model :=
  (tf.make_model layers_Input yolov4_YOLOv4Tiny yolov4_YOLOv4 model_call).
Local Abbreviation construct :=
  (tf.construct yolov4_YOLOv4Tiny yolov4_YOLOv4).
Local Abbreviation load_weights :=
  (tf.load_weights weights_load_weights model_load_weights).
Local Abbreviation compile := (tf.compile model_compile).
Local Abbreviation fit := (tf_rest.fit model_fit).
Local Abbreviation predict :=
  (tf.predict model_predict media_resize_image image_shape to_batch
     candidates_to_pred_bboxes fit_pred_bboxes_to_original).
Local Abbreviation step :=
  (tf.step round_f32 float_of_str read_classes_names layers_Input
     yolov4_YOLOv4Tiny yolov4_YOLOv4 model_call weights_load_weights
     model_load_weights model_compile).
Local Abbreviation run :=
  (tf.run round_f32 float_of_str read_classes_names layers_Input
     yolov4_YOLOv4Tiny yolov4_YOLOv4 model_call weights_load_weights
     model_load_weights model_compile).

(** [make_model] on an object whose classes were never assigned: it raises
    [TypeError] at [len(self.classes)], after it has put the flag down and
    cleared the session; no model is constructed and the model the object
    held before stays in place. *)
Theorem make_model_needs_classes (a0 a1 : string) (p : process)
  (size : Z) (inputs : KInput) (a : ndarray) :
  tf._classes (tf.self p) = PyNone ->
  tf._input_size (tf.self p) = Some size ->
  layers_Input [size; size; 3] = Ok inputs ->
  tf._anchors (tf.self p) = Some a ->
  exists msg,
    make_model a0 a1 p
    = Raises (TypeError msg)
        (tf.mk_process (tf.with_has_weights (tf.self p) false)
           (tf.backend_log p ++ [ClearSession])).
Proof.
  intros Hc Hs Hi Ha.
  unfold tf.make_model, tf.input_size, tf.construct, tf.anchors, tf.classes.
  cbn [tf.with_has_weights tf._input_size tf._anchors tf._classes].
  rewrite Hs. cbn [getattr rbind]. rewrite Hi, Ha, Hc.
  cbn [getattr rbind py_len]. now eexists.
Qed.

(** [make_model] after a dict of classes was assigned: the network is built
    for as many classes as the dict has entries. *)
Theorem make_model_counts_the_classes (d : list (pyval * pyval))
  (a0 a1 : string) (s s' : obj) (a x : ndarray) :
  tf.set_classes read_classes_names (PyDict d) s = Returns s' ->
  tf._anchors s = Some a ->
  tf._xyscales s = Some x ->
  construct a0 a1 s'
  = if tf.tiny s
    then yolov4_YOLOv4Tiny a (Z.of_nat (length d)) x a1 (tf.tpu s)
    else yolov4_YOLOv4 a (Z.of_nat (length d)) x a0 a1.
Proof.
  intros H Ha Hx. cbn in H. inversion H; subst s'.
  unfold tf.construct, tf.anchors, tf.classes, tf.xyscales.
  cbn [tf.with_classes tf._anchors tf._classes tf._xyscales tf.tiny tf.tpu].
  now rewrite Ha, Hx.
Qed.

(** [load_weights] with a [weights_type] that is neither "yolo" nor "tf":
    no loader is called, the model is left alone, and the flag goes up all
    the same. *)
Theorem load_weights_of_unknown_type (path type : string) (s : obj) :
  type <> "yolo" -> type <> "tf" ->
  load_weights path type s = Returns (tf.with_has_weights s true).
Proof.
  intros Ny Nt. unfold tf.load_weights, tf.load_into_model.
  apply String.eqb_neq in Ny, Nt. now rewrite Ny, Nt.
Qed.

(** Before [make_model] the object holds no model: [load_weights] of the
    "tf" format, [compile] and [fit] raise [AttributeError] and leave the
    object as it was, and [predict] raises it once the frame is resized. *)
Theorem methods_need_a_model (s : obj) :
  tf.model s = None ->
  (forall path, exists msg,
      load_weights path "tf" s = Raises (AttributeError msg) s)
  /\ (forall optimizer iou, exists msg,
      compile optimizer iou s = Raises (AttributeError msg) s)
  /\ (forall data_set epochs verbose callbacks, exists msg,
      fit data_set epochs verbose callbacks s
      = Raises (AttributeError msg) s)
  /\ (forall frame size image,
      tf._input_size s = Some size ->
      media_resize_image frame size = Ok image ->
      exists msg, predict frame s = Err (AttributeError msg)).
Proof.
  intros Hm. repeat split.
  - intros path. unfold tf.load_weights, tf.load_into_model. cbn.
    rewrite Hm. now eexists.
  - intros optimizer iou. unfold tf.compile. rewrite Hm. now eexists.
  - intros ds e v c. unfold tf_rest.fit. rewrite Hm. now eexists.
  - intros frame size image Hs Hr. unfold tf.predict, tf.input_size.
    rewrite Hs. cbn [getattr rbind]. rewrite Hr, Hm. now eexists.
Qed.

(** With a subdivision count of 0 the quotient cannot be formed:
    [load_dataset] raises [ZeroDivisionError], and [compile] and [fit]
    raise it before Keras is called and leave the object as it was. *)
Theorem zero_subdivision_raises (s : obj) (m : Model) (a : ndarray) :
  tf.subdivision s = 0 ->
  tf.model s = Some m ->
  tf._anchors s = Some a ->
  (forall path type training, exists msg,
      tf.load_dataset path type training s = Err (ZeroDivisionError msg))
  /\ (forall optimizer iou, exists msg,
      compile optimizer iou s = Raises (ZeroDivisionError msg) s)
  /\ (forall data_set epochs verbose callbacks, exists msg,
      fit data_set epochs verbose callbacks s
      = Raises (ZeroDivisionError msg) s).
Proof.
  intros Hz Hm Ha. repeat split.
  - intros path type training.
    unfold tf.load_dataset, tf.anchors, tf.step_batch_size, py_floordiv.
    rewrite Ha, Hz. now eexists.
  - intros optimizer iou.
    unfold tf.compile, tf.step_batch_size, py_floordiv.
    rewrite Hm, Hz. now eexists.
  - intros ds e v c.
    unfold tf_rest.fit, tf.step_batch_size, py_floordiv.
    rewrite Hm, Hz. now eexists.
Qed.

(** [fit] runs [subdivision] steps of [batch_size // subdivision] images in
    an epoch, the batch size that [compile] gives the loss: the steps of an
    epoch cover at most [batch_size] images, fewer than [subdivision] short
    of it, and all of it exactly when [subdivision] divides [batch_size]. *)
Theorem fit_steps_cover_the_batch (s : obj) (m : Model)
  (data_set : DataSet) (epochs verbose : Z) (callbacks : Callbacks)
  (optimizer : Optimizer) (iou : string) :
  0 < tf.subdivision s ->
  tf.model s = Some m ->
  let b := tf.batch_size s / tf.subdivision s in
  fit data_set epochs verbose callbacks s
  = tf.lift (@tf.with_model Model) s
      (match model_fit m data_set
               (mk_fit_arguments epochs verbose callbacks b
                  (tf.subdivision s)) with
       | Returns m' => Returns (Some m')
       | Raises e m' => Raises e (Some m')
       end)
  /\ compile optimizer iou s
     = tf.lift (@tf.with_model Model) s
         (match model_compile m optimizer (mk_YOLOv4Loss b iou) with
          | Returns m' => Returns (Some m')
          | Raises e m' => Raises e (Some m')
          end)
  /\ tf.batch_size s - tf.subdivision s < tf.subdivision s * b
     <= tf.batch_size s
  /\ (tf.subdivision s * b = tf.batch_size s
      <-> (tf.subdivision s | tf.batch_size s)).
Proof.
  intros P Hm b.
  assert (N : tf.subdivision s <> 0) by lia.
  pose proof (Z.div_mod (tf.batch_size s) (tf.subdivision s) N) as D.
  pose proof (Z.mod_pos_bound (tf.batch_size s) (tf.subdivision s) P) as B.
  fold b in D.
  split; [| split; [| split]].
  - unfold tf_rest.fit, tf.step_batch_size.
    now rewrite Hm, floordiv_nonzero.
  - unfold tf.compile, tf.step_batch_size.
    now rewrite Hm, floordiv_nonzero.
  - lia.
  - split.
    + intros E. exists b. lia.
    + intros [k Hk]. unfold b. rewrite Hk, Z.div_mul by assumption. lia.
Qed.

Lemma assignment_step (c : call) (p : process) :
  is_assignment c = true ->
  tf.model (tf.self (after (step c p))) = tf.model (tf.self p)
  /\ tf.backend_log (after (step c p)) = tf.backend_log p.
Proof.
  destruct c; try discriminate; intros _; cbn [tf.step]; unfold tf.on_self.
  - unfold tf.set_anchors. now destruct (Setters.anchors_setter _ _ _ _ _).
  - unfold tf.set_classes. now destruct (Setters.classes_setter _ _ _).
  - unfold tf.set_input_size. now destruct (_ =? _).
  - unfold tf.set_strides. now destruct (Setters.array_setter _ _).
  - unfold tf.set_xyscales. now destruct (Setters.array_setter _ _).
  - now split.
  - now split.
Qed.

(** Assignments do not reach the model: after any number of assignments to
    the configuration, whether they return or raise, the object holds the
    model it held before, built from the configuration of then, and the
    backend has seen nothing. *)
Theorem assignments_leave_the_model (calls : list call) (p : process) :
  forallb is_assignment calls = true ->
  tf.model (tf.self (run calls p)) = tf.model (tf.self p)
  /\ tf.has_weights (run calls p) = tf.has_weights p
  /\ tf.backend_log (run calls p) = tf.backend_log p.
Proof.
  induction calls as [| c calls IH] using rev_ind; intros H.
  - now cbn.
  - rewrite forallb_app in H. apply andb_true_iff in H as [H1 H2].
    cbn in H2. rewrite andb_true_r in H2.
    destruct (IH H1) as (M & W & L).
    destruct (@assignment_step c (run calls p) H2) as [M' L'].
    rewrite run_snoc. rewrite M', L', M, L.
    repeat split.
    rewrite step_keeps_flag; [exact W |].
    now destruct c.
Qed.

Lemma step_log (c : call) (p : process) :
  exists tail,
    tf.backend_log (after (step c p))
    = tf.backend_log p
      ++ (if tf.is_make_model c then ClearSession :: tail else [])
    /\ (tail = [] \/ tail = [ModelConstructed]).
Proof.
  assert (S : forall f : obj -> outcome obj,
             tf.backend_log (after (tf.on_self f p)) = tf.backend_log p).
  { intros f. unfold tf.on_self. now destruct (f (tf.self p)). }
  destruct c as [v | v | n | v | v | n | n | a0 a1 | path type | opt iou];
    cbn [tf.step tf.is_make_model];
    try (exists []; rewrite S, app_nil_r; split; [reflexivity | now left]).
  destruct (make_model_resets layers_Input yolov4_YOLOv4Tiny yolov4_YOLOv4
              model_call a0 a1 p) as [_ H].
  exact H.
Qed.

Lemma constructed_in_cleared_app (b : bool) (l t : list backend_event) :
  constructed_in_cleared b (l ++ ClearSession :: t)
  = constructed_in_cleared b l && constructed_in_cleared true t.
Proof.
  revert b. induction l as [| e l IH]; intros b; cbn; [reflexivity |].
  destruct e; rewrite IH; [reflexivity |]. now rewrite andb_assoc.
Qed.

(** In the backend log of any session every model is constructed right
    after the session was cleared, and the session was cleared once for
    every call of [make_model]. *)
Theorem models_are_constructed_in_a_cleared_session (calls : list call)
  (p : process) :
  constructed_in_cleared false (tf.backend_log p) = true ->
  constructed_in_cleared false (tf.backend_log (run calls p)) = true
  /\ length (filter is_clear (tf.backend_log (run calls p)))
     = (length (filter is_clear (tf.backend_log p))
        + length (filter (@tf.is_make_model Optimizer) calls))%nat.
Proof.
  intros H0. induction calls as [| c calls [IH1 IH2]] using rev_ind.
  - cbn. split; [exact H0 | lia].
  - rewrite run_snoc.
    destruct (step_log c (run calls p)) as (tail & -> & T).
    rewrite !filter_app, !length_app, IH2. cbn [filter].
    destruct (tf.is_make_model c).
    + rewrite constructed_in_cleared_app, IH1.
      destruct T as [-> | ->]; cbn [filter is_clear length andb
                                     constructed_in_cleared];
        (split; [reflexivity | lia]).
    + rewrite app_nil_r. split; [exact IH1 |]. cbn [filter length]. lia.
Qed.

End MoreSession.

(** * Further properties of inference *)

Section MoreGather.

(** [reshape(1, n, -1)], by the size of the array. *)
Lemma reshape_rows_exact (n : Z) (a : ndarray) :
  0 <= n ->
  np.reshape [1; n; -1] a
  = if (n =? 0) || negb (np.size a mod n =? 0)
    then Err (ValueError "cannot reshape array")
    else Ok (mk_ndarray (nd_dtype a) [1; n; np.size a / n] (nd_data a)).
Proof.
  intros N. unfold np.reshape.
  assert (E1 : existsb (fun d => d <? -1) [1; n; -1] = false).
  { cbn. now destruct (Z.ltb_spec n (-1)); [lia |]. }
  assert (E0 : (n =? -1) = false) by (apply Z.eqb_neq; lia).
  assert (E2 : np.count_auto [1; n; -1] = 1%nat).
  { unfold np.count_auto. cbn [filter]. rewrite E0. reflexivity. }
  assert (E3 : prodZ (np.known_dims [1; n; -1]) = n).
  { unfold np.known_dims. cbn [filter]. rewrite E0.
    change (1 =? -1) with false. change (-1 =? -1) with true.
    cbn [negb]. unfold prodZ. cbn [fold_right]. lia. }
  rewrite E1, E2, E3.
  destruct ((n =? 0) || negb (np.size a mod n =? 0)); [reflexivity |].
  cbn [map Z.eqb]. now rewrite E0.
Qed.

Lemma sequence_fails {A B} (f : A -> result B) (l : list A) (x : A)
  (e0 : exn) :
  In x l -> f x = Err e0 -> exists e, np.sequence (map f l) = Err e.
Proof.
  induction l as [| y l IH]; intros Hin Hx; [contradiction |].
  cbn [map np.sequence]. destruct (f y) as [b |] eqn:Y; cbn [rbind].
  - destruct Hin as [-> | Hin]; [congruence |].
    destruct (IH Hin Hx) as [e ->]. now exists e.
  - now eexists.
Qed.

(** One raw output gets through the loop of [predict] exactly when it has
    at least two axes, a positive grid size, and a number of elements that
    grid_size * grid_size * 3 divides. *)
Lemma flatten_scale_returns (c : ndarray) :
  0 <= nth 1 (nd_shape c) 0 ->
  (exists r, flatten_scale c = Ok r)
  <-> (2 <= length (nd_shape c))%nat
      /\ 0 < nth 1 (nd_shape c) 0
      /\ np.size c mod candidate_rows c = 0.
Proof.
  unfold flatten_scale, np.shape1, candidate_rows. intros G.
  destruct (nd_shape c) as [| d0 [| g rest]]; cbn [nth length rbind] in *.
  - split; [intros [r H]; discriminate | intros (H & _); lia].
  - split; [intros [r H]; discriminate | intros (H & _); lia].
  - rewrite reshape_rows_exact by nia.
    destruct (Z.eqb_spec (g * g * 3) 0) as [Z0 | Z0]; cbn [orb].
    + split; [intros [r H]; discriminate | intros (_ & P & _); nia].
    + destruct (Z.eqb_spec (np.size c mod (g * g * 3)) 0) as [M | M];
        cbn [negb].
      * split; [intros _ | intros _; now eexists].
        repeat split; [lia | nia | exact M].
      * split; [intros [r H]; discriminate | intros (_ & _ & H); lia].
Qed.

(** [predict] does not guess: if the network puts out nothing, or one
    output that cannot be cut into grid_size * grid_size * 3 rows, the
    gathering of the candidates raises, and no box is decoded. *)
Theorem gather_rejects_what_it_cannot_cut (candidates : list ndarray) :
  gather [] = Err (ValueError "need at least one array to concatenate")
  /\ (forall c,
      In c candidates ->
      0 <= nth 1 (nd_shape c) 0 ->
      ~ ((2 <= length (nd_shape c))%nat
         /\ 0 < nth 1 (nd_shape c) 0
         /\ np.size c mod candidate_rows c = 0) ->
      exists e, gather candidates = Err e).
Proof.
  split; [reflexivity |].
  intros c Hin G N. unfold gather.
  destruct (flatten_scale c) as [r | e0] eqn:F.
  - exfalso. apply N. apply flatten_scale_returns; [exact G | now exists r].
  - destruct (sequence_fails flatten_scale candidates c Hin F) as [e ->].
    now exists e.
Qed.

Lemma shape_eqb_neq (k k' : Z) : k <> k' -> shape_eqb [k] [k'] = false.
Proof.
  intros N. unfold shape_eqb.
  destruct (list_eq_dec Z.eq_dec [k] [k']) as [E | E]; [| reflexivity].
  inversion E. contradiction.
Qed.

Lemma flatten_scales_each (width : ndarray -> Z) (cs : list ndarray) :
  Forall (fun c => 0 < width c /\ scale_output (width c) c) cs ->
  np.sequence (map flatten_scale cs)
  = Ok (map (fun c => flattened (width c) c) cs).
Proof.
  intros F. induction F as [| c cs [K Hc] _ IH]; cbn; [reflexivity |].
  now rewrite (flatten_scale_output K Hc), IH.
Qed.

(** The scales must agree on the numbers per candidate: if one output has
    another number of them than the first, the concatenation raises
    [ValueError]. *)
Theorem gather_rejects_unequal_widths (width : ndarray -> Z)
  (c c' : ndarray) (cs : list ndarray) :
  Forall (fun c => 0 < width c /\ scale_output (width c) c) (c :: cs) ->
  In c' cs ->
  width c' <> width c ->
  gather (c :: cs)
  = Err (ValueError "all the input array dimensions must match exactly").
Proof.
  intros F Hin N. unfold gather.
  rewrite (flatten_scales_each width F). cbn [rbind map].
  unfold np.concatenate1.
  assert (J : forallb
                (fun b => np.joinable (nd_shape (flattened (width c) c))
                            (nd_shape b))
                (flattened (width c) c
                 :: map (fun c => flattened (width c) c) cs) = false).
  { apply not_true_is_false. intros T.
    rewrite forallb_forall in T.
    specialize (T (flattened (width c') c')).
    assert (I : In (flattened (width c') c')
                  (flattened (width c) c
                   :: map (fun c => flattened (width c) c) cs)).
    { right. apply in_map_iff. now exists c'. }
    apply T in I. cbn in I.
    rewrite shape_eqb_neq in I by congruence. discriminate. }
  now rewrite J.
Qed.

End MoreGather.

(** * Properties of the export to TFLite *)

Section SaveAsTflite.
Variable Model : Type.
Variable Iterator : Type.
Variable Images : Type.
Variable Labels : Type.
Variable Sample : Type.
Variable next : Iterator -> option (Images * Labels * Iterator).
Variable first_image : Images -> Sample.
Variable Converter : Type.
Variable Content : Type.
Variable Files : Type.
Variable from_keras_model : option Model -> result Converter.
Variable convert :
  Converter
  -> converter_settings
       (option Iterator
        -> list (list Sample) * generator_end * option Iterator)
  -> result Content.
Variable gfile_write : Files -> string -> Content -> outcome Files.

Local Abbreviation obj := (tf.YOLOv4 Model).
Local Abbreviation generate := (tf_rest.generate next first_image).
Local Abbreviation representative_dataset_gen :=
  (tf_rest.representative_dataset_gen next first_image).
Local Abbreviation draw := (tf_rest.draw next).
Local Abbreviation configure := (tf_rest.configure next first_image).
Local Abbreviation save_as_tflite :=
  (tf_rest.save_as_tflite next first_image from_keras_model convert
     gfile_write).
Local Abbreviation sample_of :=
  (fun b : Images * Labels => [first_image (fst b)]).

(** [save_as_tflite] with a [quantization] that is no option: once the
    converter is made, the call raises [ValueError] with the option in its
    message; nothing is converted and no file is written. *)
Theorem save_as_tflite_rejects_unknown_option (path q : string) (s : obj)
  (files : Files) (converter : Converter) :
  q <> EmptyString -> q <> "float16" -> q <> "int" -> q <> "full_int8" ->
  from_keras_model (tf.model s) = Ok converter ->
  save_as_tflite path (Some q) s files
  = Raises
      (ValueError ("YOLOv4: " ++ q ++ " is not a valid option")%string)
      files.
Proof.
  intros N0 N1 N2 N3 F. unfold tf_rest.save_as_tflite. rewrite F.
  unfold tf_rest.configure, tf_rest.equals, tf_rest.truthy.
  apply String.eqb_neq in N0, N1, N2, N3.
  now rewrite N0, N1, N2, N3.
Qed.

(** The options of [save_as_tflite]: the converter is configured exactly
    for no quantization ([None] or the empty string), "float16", "int" and
    "full_int8"; the default optimization is switched on for every one of
    these but the first, and the generator of the representative data set,
    and with it [data_set], comes in for "int" and "full_int8" alone. *)
Theorem save_as_tflite_options (quantization : option string) :
  ((exists settings, configure quantization = Ok settings)
   <-> In quantization
         [None; Some EmptyString; Some "float16"; Some "int"; Some "full_int8"])
  /\ (forall settings,
      configure quantization = Ok settings ->
      (optimizations settings
       = if match quantization with
            | None | Some EmptyString => true
            | _ => false
            end
         then None else Some [Optimize_DEFAULT])
      /\ (representative_dataset settings
          = if match quantization with
               | Some "int" | Some "full_int8" => true
               | _ => false
               end
            then Some representative_dataset_gen else None)).
Proof.
  unfold tf_rest.configure, tf_rest.equals, tf_rest.truthy.
  destruct quantization as [q |].
  - destruct (String.eqb_spec q "float16") as [-> | N1].
    { split; [split; [intros _; cbn; auto | intros _; now eexists] |].
      intros settings H. inversion H. now split. }
    destruct (String.eqb_spec q "int") as [-> | N2].
    { split; [split; [intros _; cbn; auto | intros _; now eexists] |].
      intros settings H. inversion H. now split. }
    destruct (String.eqb_spec q "full_int8") as [-> | N3].
    { split; [split; [intros _; cbn; auto 6 | intros _; now eexists] |].
      intros settings H. inversion H. now split. }
    destruct (String.eqb_spec q EmptyString) as [-> | N0]; cbn [negb].
    { split; [split; [intros _; cbn; auto | intros _; now eexists] |].
      intros settings H. inversion H. now split. }
    split; [| discriminate].
    split; [intros [settings H]; discriminate |].
    intros [H | [H | [H | [H | [H | []]]]]]; congruence.
  - split; [split; [intros _; cbn; auto | intros _; now eexists] |].
    intros settings H. inversion H. now split.
Qed.

Lemma generate_drawn (n : nat) (it it' : Iterator)
  (batches : list (Images * Labels)) :
  draw n it = Some (batches, it') ->
  generate n it = (map sample_of batches, Finished, Some it').
Proof.
  revert it batches.
  induction n as [| n IH]; intros it batches H; cbn in *.
  - now inversion H.
  - destruct (next it) as [[[images labels] it1] |]; [| discriminate].
    destruct (draw n it1) as [[bs rest] |] eqn:D; [| discriminate].
    inversion H; subst. now rewrite (IH it1 bs D).
Qed.

Lemma generate_starved (n : nat) (it : Iterator) :
  draw n it = None ->
  exists batches it',
    generate n it = (map sample_of batches, Starved, Some it')
    /\ (length batches < n)%nat
    /\ draw (length batches) it = Some (batches, it')
    /\ next it' = None.
Proof.
  revert it. induction n as [| n IH]; intros it H; cbn in *; [discriminate |].
  destruct (next it) as [[[images labels] it1] |] eqn:N.
  - destruct (draw n it1) as [[bs rest] |] eqn:D; [discriminate |].
    destruct (IH it1 D) as (batches & it' & G & L & D' & E).
    exists ((images, labels) :: batches), it'. rewrite G.
    cbn [map length tf_rest.draw]. rewrite N, D'.
    repeat split; trivial. lia.
  - exists [], it. cbn. repeat split; trivial. lia.
Qed.

Lemma draw_app (n m : nat) (it it1 it2 : Iterator)
  (b1 b2 : list (Images * Labels)) :
  draw n it = Some (b1, it1) ->
  draw m it1 = Some (b2, it2) ->
  draw (n + m) it = Some (b1 ++ b2, it2).
Proof.
  revert it b1. induction n as [| n IH]; intros it b1 H1 H2; cbn in *.
  - inversion H1; subst. exact H2.
  - destruct (next it) as [[[images labels] it'] |]; [| discriminate].
    destruct (draw n it') as [[bs rest] |] eqn:D; [| discriminate].
    inversion H1; subst. now rewrite (IH it' bs D H2).
Qed.

(** One run of the generator of the representative data set, on a data set
    that has 20 batches left: it yields 20 samples, the first image of each
    of the next 20 batches in their order, and leaves the data set 20
    batches further. *)
Theorem representative_dataset_takes_twenty (it it' : Iterator)
  (batches : list (Images * Labels)) :
  draw 20 it = Some (batches, it') ->
  representative_dataset_gen (Some it)
  = (map sample_of batches, Finished, Some it')
  /\ length batches = 20%nat.
Proof.
  intros D. split; [now apply generate_drawn |].
  clear - D. revert D. generalize 20%nat as n. intros n. revert it batches.
  induction n as [| n IH]; intros it batches H; cbn in H.
  - now inversion H.
  - destruct (next it) as [[[images labels] it1] |]; [| discriminate].
    destruct (draw n it1) as [[bs rest] |] eqn:D; [| discriminate].
    inversion H; subst. cbn. f_equal. exact (IH it1 bs D).
Qed.

(** On a data set that runs out before, the generator yields the first
    image of every batch that is left, fewer than 20, and then stops inside
    [next(data_set)], with the data set exhausted. *)
Theorem representative_dataset_on_short_data_set (it : Iterator) :
  draw 20 it = None ->
  exists batches it',
    representative_dataset_gen (Some it)
    = (map sample_of batches, Starved, Some it')
    /\ (length batches < 20)%nat
    /\ draw (length batches) it = Some (batches, it')
    /\ next it' = None.
Proof. apply generate_starved. Qed.

(** The generator draws from the data set it was given, not from a copy:
    a second run goes on where the first one stopped, so that two runs
    yield the first images of 40 batches in a row. *)
Theorem representative_dataset_runs_continue (it it1 it2 : Iterator)
  (b1 b2 : list (Images * Labels)) :
  draw 20 it = Some (b1, it1) ->
  draw 20 it1 = Some (b2, it2) ->
  representative_dataset_gen (Some it)
  = (map sample_of b1, Finished, Some it1)
  /\ representative_dataset_gen (Some it1)
     = (map sample_of b2, Finished, Some it2)
  /\ draw 40 it = Some (b1 ++ b2, it2).
Proof.
  intros D1 D2. repeat split.
  - now apply generate_drawn.
  - now apply generate_drawn.
  - exact (draw_app 20 20 it D1 D2).
Qed.

End SaveAsTflite.

(** * Properties of the loading of a TFLite model *)

Section LoadTflite.
Variable Interpreter : Type.
Variable Image : Type.
Variable tflite_Interpreter : string -> bool -> result Interpreter.
Variable allocate_tensors : Interpreter -> outcome Interpreter.
Variable get_input_details : Interpreter -> list tensor_details.
Variable get_output_details : Interpreter -> list tensor_details.
Variable interpreter_get_tensor : Interpreter -> Z -> result ndarray.
Variable image_shape : Image -> list Z.
Variable candidates_to_pred_bboxes : ndarray -> option Z -> result ndarray.
Variable fit_pred_bboxes_to_original : ndarray -> list Z -> result ndarray.

Local Abbreviation obj := (tflite.YOLOv4 Interpreter).
Local Abbreviation load_tflite :=
  (tflite_rest.load_tflite tflite_Interpreter allocate_tensors
     get_input_details get_output_details).
Local Abbreviation read_details :=
  (tflite_rest.read_details get_input_details get_output_details).
Local Abbreviation read_boxes :=
  (tflite.read_boxes interpreter_get_tensor image_shape
     candidates_to_pred_bboxes fit_pred_bboxes_to_original).

Lemma read_details_returns (i : Interpreter) (s s' : obj) :
  read_details i s = Returns s' ->
  exists input rest size,
    get_input_details i = input :: rest
    /\ tflite_rest.shape_1 input = Ok size
    /\ tflite.input_size s' = Some size
    /\ tflite.input_index s' = Some (details_index input)
    /\ tflite.output_index s'
       = Some (map details_index (get_output_details i))
    /\ tflite.interpreter s' = tflite.interpreter s
    /\ (tflite.tpu s = false -> tflite.output_size s' = tflite.output_size s)
    /\ tflite._anchors s' = tflite._anchors s
    /\ tflite._classes s' = tflite._classes s
    /\ tflite._xyscales s' = tflite._xyscales s.
Proof.
  unfold tflite_rest.read_details.
  destruct (get_input_details i) as [| input rest] eqn:Hin; [discriminate |].
  destruct (tflite_rest.shape_1 input) as [size | e] eqn:Hsh;
    [| discriminate].
  cbn [tflite.tpu tflite_rest.with_input_index tflite_rest.with_input_size].
  destruct (tflite.tpu s) eqn:Htpu.
  - destruct (np.sequence _) as [l | e]; [| discriminate].
    intros H. inversion H; subst s'. exists input, rest, size.
    split; [reflexivity |]. split; [exact Hsh |].
    repeat (split; [reflexivity |]).
    split; [intros X; discriminate X |]. now repeat split.
  - intros H. inversion H; subst s'. exists input, rest, size.
    split; [reflexivity |]. split; [exact Hsh |]. now repeat split.
Qed.

(** [load_tflite] and then [predict]: after a returning [load_tflite] the
    object holds the new interpreter, the input size is the second extent of
    its first input, whatever that is, and [predict] reads the output
    tensors at the indices of [get_output_details()], in that order. *)
Theorem predict_reads_the_loaded_outputs (path : string) (s s' : obj)
  (frame : Image) :
  load_tflite path s = Returns s' ->
  exists i input rest size,
    tflite.interpreter s' = Some i
    /\ get_input_details i = input :: rest
    /\ tflite_rest.shape_1 input = Ok size
    /\ tflite.input_size s' = Some size
    /\ tflite._anchors s' = tflite._anchors s
    /\ tflite._classes s' = tflite._classes s
    /\ tflite._xyscales s' = tflite._xyscales s
    /\ read_boxes frame s'
       = (candidates <-
            np.sequence
              (map (fun d => interpreter_get_tensor i (details_index d))
                 (get_output_details i)) ;;
          c0 <- gather candidates ;;
          pred_bboxes <- candidates_to_pred_bboxes c0 (Some size) ;;
          fit_pred_bboxes_to_original pred_bboxes (image_shape frame)).
Proof.
  unfold tflite_rest.load_tflite.
  destruct (tflite_Interpreter path (tflite.tpu s)) as [i0 | e];
    [| discriminate].
  destruct (allocate_tensors i0) as [i | e i]; [| discriminate].
  intros H.
  destruct (read_details_returns _ _ H)
    as (input & rest & size & Hi & Hs & Hsz & _ & Ho & Hint & _ & Ha & Hc
        & Hx).
  exists i, input, rest, size. cbn in Hint, Ha, Hc, Hx.
  repeat split; trivial.
  unfold tflite.read_boxes. rewrite Ho, Hsz, map_map.
  rewrite (map_ext (fun d => tflite.get_tensor interpreter_get_tensor s'
                               (details_index d))
             (fun d => interpreter_get_tensor i (details_index d)))
    by (intros d; unfold tflite.get_tensor; now rewrite Hint).
  reflexivity.
Qed.


Variable round_f32 : Q -> Q.
Variable float_of_str : string -> option Q.
Variable interpreter_set_tensor :
  Interpreter -> option Z -> Image -> outcome Interpreter.
Variable interpreter_invoke : Interpreter -> outcome Interpreter.
Variable media_resize_image : Image -> option Z -> result Image.
Variable to_batch : Image -> Image.

(** A new object holds no interpreter: until [load_tflite] has run,
    [predict] raises on every frame, whatever the resizing makes of the
    missing input size, and leaves the object as it is. *)
Theorem tflite_predict_needs_load_tflite (tiny tpu : bool) (s : obj)
  (frame : Image) :
  tflite.init round_f32 float_of_str Interpreter tiny tpu = Returns s ->
  exists e,
    tflite.predict interpreter_set_tensor interpreter_invoke
      interpreter_get_tensor media_resize_image image_shape to_batch
      candidates_to_pred_bboxes fit_pred_bboxes_to_original frame s
    = (s, Err e).
Proof.
  intros H.
  assert (I : tflite.interpreter s = None /\ tflite.input_size s = None).
  { destruct tiny; cbn in H; inversion H; now split. }
  destruct I as [I Z0].
  unfold tflite.predict, tflite.run_interpreter. rewrite I, Z0.
  destruct (media_resize_image frame None); now eexists.
Qed.

End LoadTflite.

(** * Further examples *)

(** Three numbers for [anchors]: both classes raise and hold the array of
    three. *)
Lemma anchors_rejected_value_is_stored_three_numbers :
  (exists e,
      tf.set_anchors Sample.round_f32 Sample.float_of_str (tf.ints [1; 2; 3])
        Sample.full
      = Raises e
          (tf.with_anchors Sample.full
             (Some (mk_ndarray dt_int [3] [SInt 1; SInt 2; SInt 3]))))
  /\ (exists e,
      tflite.set_anchors Sample.round_f32 Sample.float_of_str
        (tf.ints [1; 2; 3]) Sample.lite
      = Raises e
          (tflite.with_anchors Sample.lite
             (Some (mk_ndarray dt_int [3] [SInt 1; SInt 2; SInt 3])))).
Proof.
  apply (@anchors_rejected_value_is_stored Sample.round_f32
           Sample.float_of_str Sample.Model unit (tf.ints [1; 2; 3])
           (mk_ndarray dt_int [3] [SInt 1; SInt 2; SInt 3])
           Sample.full Sample.lite).
  - right. split; reflexivity.
  - vm_compute. discriminate.
  - vm_compute. discriminate.
Defined.

(** The anchors of the full network as one flat list of 18 numbers. *)
Lemma anchors_nesting_is_irrelevant_flat_list :
  tf.set_anchors Sample.round_f32 Sample.float_of_str
    (tf.ints [12; 16; 19; 36; 40; 28; 36; 75; 76; 55; 72; 146; 142; 110;
              192; 243; 459; 401])
    Sample.full
  = Returns Sample.full.
Proof.
  apply (@anchors_nesting_is_irrelevant Sample.round_f32 Sample.float_of_str
           Sample.Model (tf.default_anchors false)
           (tf.ints [12; 16; 19; 36; 40; 28; 36; 75; 76; 55; 72; 146; 142;
                     110; 192; 243; 459; 401])
           (mk_ndarray dt_int [3; 3; 2]
              (map SInt [12; 16; 19; 36; 40; 28; 36; 75; 76; 55; 72; 146;
                         142; 110; 192; 243; 459; 401]))
           (mk_ndarray dt_int [18]
              (map SInt [12; 16; 19; 36; 40; 28; 36; 75; 76; 55; 72; 146;
                         142; 110; 192; 243; 459; 401]))
           Sample.full Sample.full).
  - right. split; reflexivity.
  - right. split; reflexivity.
  - reflexivity.
  - reflexivity.
Defined.

(** The default object, where rounding is the identity: its anchors can be
    assigned again. *)
Lemma anchors_reassignment_is_idempotent_default :
  exists a,
    tf._anchors Sample.full = Some a
    /\ tf.set_anchors Sample.round_f32 Sample.float_of_str (PyArray a)
         Sample.full
       = Returns Sample.full.
Proof.
  eexists. split; [reflexivity |].
  apply (@anchors_reassignment_is_idempotent Sample.round_f32
           Sample.float_of_str Sample.Model (tf.default_anchors false) _
           Sample.full Sample.full).
  - intros q. reflexivity.
  - reflexivity.
  - reflexivity.
Defined.

(** 416 on the default object: 52 cells at stride 8. *)
Lemma accepted_input_size_fits_default_strides_416 :
  tf.set_input_size 416 Sample.full
  = Returns (tf.with_input_size Sample.full (Some 416))
  /\ (8 | 416) /\ 8 * (416 / 8) = 416.
Proof.
  split; [reflexivity |].
  apply (@accepted_input_size_fits_default_strides Sample.round_f32
           Sample.float_of_str Sample.Model false false 416 Sample.full
           (tf.with_input_size Sample.full (Some 416))
           (mk_ndarray dt_int [3] [SInt 8; SInt 16; SInt 32]) 8).
  - reflexivity.
  - reflexivity.
  - reflexivity.
  - left. reflexivity.
Defined.

(** [YOLOv4().make_model()] *)
Lemma make_model_needs_classes_default :
  exists msg,
    tf.make_model Sample.layers_Input Sample.yolov4_YOLOv4Tiny
      Sample.yolov4_YOLOv4 Sample.model_call "mish" "leaky"
      (tf.mk_process Sample.full [])
    = Raises (TypeError msg)
        (tf.mk_process (tf.with_has_weights Sample.full false)
           [ClearSession]).
Proof.
  eapply (@make_model_needs_classes Sample.Model Sample.KInput
            Sample.layers_Input Sample.yolov4_YOLOv4Tiny Sample.yolov4_YOLOv4
            Sample.model_call "mish" "leaky" (tf.mk_process Sample.full [])
            608 tt).
  - reflexivity.
  - reflexivity.
  - reflexivity.
  - reflexivity.
Defined.

(** Two classes on the default object. *)
Lemma make_model_counts_the_classes_two :
  exists a x,
    tf.construct Sample.yolov4_YOLOv4Tiny Sample.yolov4_YOLOv4 "mish" "leaky"
      (after (tf.set_classes Sample.read_classes_names Sample.coco2
                Sample.full))
    = Sample.yolov4_YOLOv4 a 2 x "mish" "leaky".
Proof.
  do 2 eexists.
  eapply (@make_model_counts_the_classes Sample.read_classes_names
            Sample.Model Sample.yolov4_YOLOv4Tiny Sample.yolov4_YOLOv4
            [(PyInt 0, PyStr "person"); (PyInt 1, PyStr "bicycle")]
            "mish" "leaky" Sample.full).
  - reflexivity.
  - reflexivity.
  - reflexivity.
Defined.

(** [yolo.load_weights("no such file", weights_type="darknet")] *)
Lemma load_weights_of_unknown_type_darknet :
  tf.load_weights Sample.weights_load_weights Sample.model_load_weights
    "no such file" "darknet" (tf.self Sample.built)
  = Returns (tf.with_has_weights (tf.self Sample.built) true).
Proof.
  apply (@load_weights_of_unknown_type Sample.Model
           Sample.weights_load_weights Sample.model_load_weights
           "no such file" "darknet" (tf.self Sample.built)).
  - discriminate.
  - discriminate.
Defined.

(** [YOLOv4().compile()] *)
Lemma methods_need_a_model_default :
  exists msg,
    tf.compile Sample.model_compile tt "ciou" Sample.full
    = Raises (AttributeError msg) Sample.full.
Proof.
  destruct (@methods_need_a_model Sample.Model Sample.Optimizer Sample.Image
              unit unit Sample.weights_load_weights Sample.model_load_weights
              Sample.model_compile Sample2.model_fit Sample.model_predict
              Sample.media_resize_image Sample.image_shape Sample.to_batch
              Sample.candidates_to_pred_bboxes
              Sample.fit_pred_bboxes_to_original Sample.full eq_refl)
    as (_ & C & _).
  exact (C tt "ciou").
Defined.

(** [yolo.subdivision = 0; yolo.fit(data_set, 10)] on a built model. *)
Lemma zero_subdivision_raises_on_fit :
  exists msg,
    tf_rest.fit Sample2.model_fit tt 10 1 tt
      (tf.self (Sample.run [tf.SetSubdivision Sample.Optimizer 0]
                  Sample.built))
    = Raises (ZeroDivisionError msg)
        (tf.self (Sample.run [tf.SetSubdivision Sample.Optimizer 0]
                    Sample.built)).
Proof.
  edestruct (@zero_subdivision_raises Sample.Model Sample.Optimizer unit unit
               Sample.model_compile Sample2.model_fit
               (tf.self (Sample.run [tf.SetSubdivision Sample.Optimizer 0]
                           Sample.built)) tt)
    as (_ & _ & F).
  - reflexivity.
  - reflexivity.
  - reflexivity.
  - exact (F tt 10 1 tt).
Defined.

(** The defaults: 16 steps of 32 // 16 = 2 images. *)
Lemma fit_steps_cover_the_batch_default :
  tf_rest.fit Sample2.model_fit tt 10 1 tt (tf.self Sample.built)
  = tf.lift (@tf.with_model Sample.Model) (tf.self Sample.built)
      (match Sample2.model_fit tt tt (mk_fit_arguments 10 1 tt 2 16) with
       | Returns m' => Returns (Some m')
       | Raises e m' => Raises e (Some m')
       end)
  /\ 16 * 2 = 32.
Proof.
  destruct (@fit_steps_cover_the_batch Sample.Model Sample.Optimizer unit
              unit Sample.model_compile Sample2.model_fit
              (tf.self Sample.built) tt tt 10 1 tt tt "ciou")
    as (F & _ & _ & D).
  - reflexivity.
  - reflexivity.
  - split; [exact F |]. apply D. exists 2. reflexivity.
Defined.

(** A built model, then assignments, one of them rejected. *)
Lemma assignments_leave_the_model_built :
  tf.model
    (tf.self
       (Sample.run
          [tf.SetInputSize Sample.Optimizer 416;
           tf.SetAnchors Sample.Optimizer (tf.ints [1; 2; 3]);
           tf.SetClasses Sample.Optimizer PyNone;
           tf.SetBatchSize Sample.Optimizer 64]
          Sample.built))
  = Some tt.
Proof.
  destruct (@assignments_leave_the_model Sample.round_f32
              Sample.float_of_str Sample.read_classes_names Sample.Model
              Sample.KInput Sample.Optimizer Sample.layers_Input
              Sample.yolov4_YOLOv4Tiny Sample.yolov4_YOLOv4 Sample.model_call
              Sample.weights_load_weights Sample.model_load_weights
              Sample.model_compile
              [tf.SetInputSize Sample.Optimizer 416;
               tf.SetAnchors Sample.Optimizer (tf.ints [1; 2; 3]);
               tf.SetClasses Sample.Optimizer PyNone;
               tf.SetBatchSize Sample.Optimizer 64]
              Sample.built eq_refl)
    as (M & _).
  exact M.
Defined.

(** Two calls of [make_model] in a session, the first one failing for want
    of classes. *)
Lemma models_are_constructed_in_a_cleared_session_twice :
  tf.backend_log
    (Sample.run
       [tf.MakeModel Sample.Optimizer "mish" "leaky";
        tf.SetClasses Sample.Optimizer Sample.coco2;
        tf.MakeModel Sample.Optimizer "mish" "leaky"]
       (tf.mk_process Sample.full []))
  = [ClearSession; ClearSession; ModelConstructed]
  /\ constructed_in_cleared false
       [ClearSession; ClearSession; ModelConstructed] = true.
Proof.
  split; [reflexivity |].
  destruct (@models_are_constructed_in_a_cleared_session Sample.round_f32
              Sample.float_of_str Sample.read_classes_names Sample.Model
              Sample.KInput Sample.Optimizer Sample.layers_Input
              Sample.yolov4_YOLOv4Tiny Sample.yolov4_YOLOv4 Sample.model_call
              Sample.weights_load_weights Sample.model_load_weights
              Sample.model_compile
              [tf.MakeModel Sample.Optimizer "mish" "leaky";
               tf.SetClasses Sample.Optimizer Sample.coco2;
               tf.MakeModel Sample.Optimizer "mish" "leaky"]
              (tf.mk_process Sample.full []) eq_refl)
    as (C & _).
  exact C.
Defined.

(** One good output and one of a single axis. *)
Lemma gather_rejects_what_it_cannot_cut_one_axis :
  exists e,
    gather [Sample.raw_output 1 2;
            mk_ndarray dt_float32 [6] (nd_data (Sample.raw_output 1 2))]
    = Err e.
Proof.
  destruct (gather_rejects_what_it_cannot_cut
              [Sample.raw_output 1 2;
               mk_ndarray dt_float32 [6] (nd_data (Sample.raw_output 1 2))])
    as [_ H].
  apply (H (mk_ndarray dt_float32 [6] (nd_data (Sample.raw_output 1 2)))).
  - right. left. reflexivity.
  - cbn. lia.
  - intros (L & _). cbn in L. lia.
Defined.

(** Two scales, with two and with three numbers for each candidate. *)
Lemma gather_rejects_unequal_widths_two_and_three :
  gather [Sample.raw_output 1 2; Sample.raw_output 2 3]
  = Err (ValueError "all the input array dimensions must match exactly").
Proof.
  apply (@gather_rejects_unequal_widths (fun c => nth 4 (nd_shape c) 0)
           (Sample.raw_output 1 2) (Sample.raw_output 2 3)
           [Sample.raw_output 2 3]).
  - repeat constructor; try reflexivity; cbn; lia.
  - left. reflexivity.
  - cbn. discriminate.
Defined.

(** [yolo.save_as_tflite("yolov4.tflite", "int8")] *)
Lemma save_as_tflite_rejects_unknown_option_int8 :
  tf_rest.save_as_tflite Sample2.next Sample2.first_image
    Sample2.from_keras_model Sample2.convert Sample2.gfile_write
    "yolov4.tflite" (Some "int8") (tf.self Sample.built) []
  = Raises (ValueError "YOLOv4: int8 is not a valid option") [].
Proof.
  apply (@save_as_tflite_rejects_unknown_option Sample.Model nat nat unit nat
           Sample2.next Sample2.first_image unit string
           (list (string * string)) Sample2.from_keras_model Sample2.convert
           Sample2.gfile_write "yolov4.tflite" "int8" (tf.self Sample.built)
           [] tt).
  - discriminate.
  - discriminate.
  - discriminate.
  - discriminate.
  - reflexivity.
Defined.

(** The numbered data set from its start: the batches 0 to 19. *)
Lemma representative_dataset_takes_twenty_from_start :
  tf_rest.representative_dataset_gen Sample2.next Sample2.first_image
    (Some 0%nat)
  = (map (fun i => [i]) (seq 0 20), Finished, Some 20%nat).
Proof.
  destruct (@representative_dataset_takes_twenty nat nat unit nat
              Sample2.next Sample2.first_image 0%nat 20%nat
              (map (fun i => (i, tt)) (seq 0 20)) eq_refl)
    as [H _].
  exact H.
Defined.

(** The numbered data set with ten batches left. *)
Lemma representative_dataset_on_short_data_set_ten_left :
  exists batches it',
    tf_rest.representative_dataset_gen Sample2.next Sample2.first_image
      (Some 40%nat)
    = (map (fun b : nat * unit => [Sample2.first_image (fst b)]) batches,
       Starved, Some it')
    /\ (length batches < 20)%nat
    /\ tf_rest.draw Sample2.next (length batches) 40%nat
       = Some (batches, it')
    /\ Sample2.next it' = None.
Proof.
  apply (@representative_dataset_on_short_data_set nat nat unit nat
           Sample2.next Sample2.first_image 40%nat).
  reflexivity.
Defined.

(** Two runs on the numbered data set: the batches 0 to 39. *)
Lemma representative_dataset_runs_continue_from_start :
  tf_rest.draw Sample2.next 40 0%nat
  = Some (map (fun i => (i, tt)) (seq 0 20)
          ++ map (fun i => (i, tt)) (seq 20 20), 40%nat).
Proof.
  destruct (@representative_dataset_runs_continue nat nat unit nat
              Sample2.next Sample2.first_image 0%nat 20%nat 40%nat
              (map (fun i => (i, tt)) (seq 0 20))
              (map (fun i => (i, tt)) (seq 20 20)) eq_refl eq_refl)
    as (_ & _ & H).
  exact H.
Defined.

(** The tiny model file: the input size is 416, and the outputs are read at
    the indices 1 and 0. *)
Lemma predict_reads_the_loaded_outputs_tiny :
  exists s',
    tflite_rest.load_tflite Sample2.tflite_Interpreter
      Sample2.allocate_tensors Sample2.get_input_details
      Sample2.get_output_details "yolov4-tiny.tflite" Sample.lite
    = Returns s'
    /\ tflite.input_size s' = Some 416
    /\ tflite.read_boxes Sample.interpreter_get_tensor Sample.image_shape
         Sample.lite_candidates_to_pred_bboxes
         Sample.fit_pred_bboxes_to_original tt s'
       = (candidates <-
            np.sequence
              (map (fun d => Sample.interpreter_get_tensor tt
                               (details_index d))
                 (Sample2.get_output_details tt)) ;;
          c0 <- gather candidates ;;
          pred_bboxes <- Sample.lite_candidates_to_pred_bboxes c0 (Some 416) ;;
          Sample.fit_pred_bboxes_to_original pred_bboxes
            (Sample.image_shape tt)).
Proof.
  eexists. split; [reflexivity |].
  destruct (@predict_reads_the_loaded_outputs unit Sample.Image
              Sample2.tflite_Interpreter Sample2.allocate_tensors
              Sample2.get_input_details Sample2.get_output_details
              Sample.interpreter_get_tensor Sample.image_shape
              Sample.lite_candidates_to_pred_bboxes
              Sample.fit_pred_bboxes_to_original "yolov4-tiny.tflite"
              Sample.lite _ tt eq_refl)
    as (i & input & rest & size & _ & _ & _ & Hs & _ & _ & _ & R).
  split; [reflexivity |].
  destruct i. rewrite R. cbn in Hs. inversion Hs. reflexivity.
Defined.


(** [YOLOv4(tiny=True).predict(frame)] *)
Lemma tflite_predict_needs_load_tflite_tiny :
  exists e,
    tflite.predict Sample.interpreter_set_tensor Sample.interpreter_invoke
      Sample.interpreter_get_tensor Sample.lite_resize_image
      Sample.image_shape Sample.to_batch
      Sample.lite_candidates_to_pred_bboxes
      Sample.fit_pred_bboxes_to_original tt Sample.lite
    = (Sample.lite, Err e).
Proof.
  apply (@tflite_predict_needs_load_tflite unit Sample.Image
           Sample.interpreter_get_tensor Sample.image_shape
           Sample.lite_candidates_to_pred_bboxes
           Sample.fit_pred_bboxes_to_original Sample.round_f32
           Sample.float_of_str Sample.interpreter_set_tensor
           Sample.interpreter_invoke Sample.lite_resize_image Sample.to_batch
           true false Sample.lite tt).
  reflexivity.
Defined.
